(** * cli-pomodoro: timers, todos and their persistence

    A shallow embedding of [storage.py], [todo.py] and [timer.py].

    - Python integers are unbounded: [Z].
    - Python strings are [string]; [a == b] is [String.eqb] and
      [a.startswith(b)] is [String.prefix b a].
    - A [dict] keeps insertion order and the managers iterate over it, so it
      is an association list with the update discipline of a Python dict
      ([PyDict]).
    - [Timer] objects and asyncio tasks are shared and mutated in place: both
      live in stores indexed by reference ([heap], [pool]).
    - [uuid.uuid4()] and [datetime.now()] are inputs of the operations that
      call them.
    - Which texts UTF-8 can encode, and which titles the terminal can print,
      are parameters of the calls that depend on it ([TodoCalls],
      [Pomodoro]). *)

From Stdlib Require Import ZArith String Ascii List Bool Lia.
From stdpp Require Import base list.
Import ListNotations.

Local Open Scope string_scope.
Local Open Scope list_scope.

(** ** Python dictionaries, in insertion order *)

Module PyDict.
Section Dict.
Context {V : Type}.

Definition dict := list (string * V).

(** [k in d] *)
Definition mem (k : string) (d : dict) : bool :=
  existsb (fun kv => String.eqb (fst kv) k) d.

(** [d[k]], when [k in d] *)
Fixpoint get (k : string) (d : dict) : option V :=
  match d with
  | [] => None
  | (k', v) :: d' => if String.eqb k' k then Some v else get k d'
  end.

(** [d[k] = v]: an existing key keeps its position, a new one goes last *)
Fixpoint set (k : string) (v : V) (d : dict) : dict :=
  match d with
  | [] => [(k, v)]
  | (k', v') :: d' =>
      if String.eqb k' k then (k', v) :: d' else (k', v') :: set k v d'
  end.

(** [del d[k]] *)
Fixpoint del (k : string) (d : dict) : dict :=
  match d with
  | [] => []
  | (k', v') :: d' => if String.eqb k' k then d' else (k', v') :: del k d'
  end.

Definition keys (d : dict) : list string := map fst d.
Definition values (d : dict) : list V := map snd d.
End Dict.
Arguments dict : clear implicits.
End PyDict.

(** [x == y or x.startswith(y)]: the id test every lookup of the managers
    uses, [x] the stored id and [y] the id given by the caller. *)
Definition id_matches (stored given : string) : bool :=
  String.eqb stored given || String.prefix given stored.

(** ** storage.py: the Todo entity *)

Module Todo.
Record Todo := mk {
  id : string;
  title : string;
  completed : bool;
  created_at : string;
  completed_at : option string;
  timer_minutes : option Z
}.

(** [Todo.create]; [uuid] is [str(uuid.uuid4())], [now] is
    [datetime.now().isoformat()]. *)
Definition create (uuid now : string) (title : string)
    (timer_minutes : option Z) : Todo :=
  {| id := String.substring 0 8 uuid;
     title := title;
     completed := false;
     created_at := now;
     completed_at := None;
     timer_minutes := timer_minutes |}.

Definition mark_complete (now : string) (t : Todo) : Todo :=
  {| id := id t;
     title := title t;
     completed := true;
     created_at := created_at t;
     completed_at := Some now;
     timer_minutes := timer_minutes t |}.
End Todo.

(** ** storage.py: the Timer entity *)

Module Timer.
Local Open Scope Z_scope.

Record Timer := mk {
  id : string;
  title : string;
  total_seconds : Z;
  remaining_seconds : Z;
  started_at : string;
  todo_id : option string;
  paused : bool
}.

Definition create (uuid now : string) (title : string) (minutes : Z)
    (todo_id : option string) : Timer :=
  let total_seconds := minutes * 60 in
  {| id := String.substring 0 8 uuid;
     title := title;
     total_seconds := total_seconds;
     remaining_seconds := total_seconds;
     started_at := now;
     todo_id := todo_id;
     paused := false |}.

Definition elapsed_seconds (t : Timer) : Z :=
  total_seconds t - remaining_seconds t.

Definition is_complete (t : Timer) : bool := remaining_seconds t <=? 0.

Definition set_remaining (r : Z) (t : Timer) : Timer :=
  {| id := id t;
     title := title t;
     total_seconds := total_seconds t;
     remaining_seconds := r;
     started_at := started_at t;
     todo_id := todo_id t;
     paused := paused t |}.

Definition set_paused (p : bool) (t : Timer) : Timer :=
  {| id := id t;
     title := title t;
     total_seconds := total_seconds t;
     remaining_seconds := remaining_seconds t;
     started_at := started_at t;
     todo_id := todo_id t;
     paused := p |}.

(** [Timer.tick]: the timer after the call, and the value returned. *)
Definition tick (t : Timer) : Timer * bool :=
  let t' :=
    if (0 <? remaining_seconds t) && negb (paused t)
    then set_remaining (remaining_seconds t - 1) t
    else t in
  (t', 0 <? remaining_seconds t').
End Timer.


(** ** storage.py: persistence of the todo collection

    [json.load] and [json.dump] belong to the Python library.  The file
    [todos.json] is modelled by what [json.load] makes of it: text that it
    rejects with [JSONDecodeError], or the document it decodes to; a document
    written by [json.dump] is read back as the same document. *)

#[warnings="-register-all"]
Inductive json :=
| JNull
| JBool (b : bool)
| JInt (n : Z)
| JFloat (literal : string)
| JStr (s : string)
| JArr (items : list json)
| JObj (fields : list (string * json)).

Inductive file_content :=
| NotJson (text : string)
| Json (doc : json).

(** The exceptions that [load_todos] names or meets. *)
Inductive exn := JSONDecodeError | KeyError | TypeError.

(** What a call does: return, raise, or return an object of which some field
    holds a value outside its annotated type (Python does not check the
    annotations of a dataclass; such objects are outside the typed [Todo]). *)
Inductive outcome (A : Type) :=
| Returns (a : A)
| Raises (e : exn)
| Unannotated.
Arguments Returns {A} a.
Arguments Raises {A} e.
Arguments Unannotated {A}.

(** [try: body  except (JSONDecodeError, KeyError): return handler] *)
Definition except_decode_or_key {A} (body : outcome A) (handler : A) : outcome A :=
  match body with
  | Raises JSONDecodeError | Raises KeyError => Returns handler
  | other => other
  end.

Module Storage.
Import Todo.

(** [asdict(self)] *)
Definition to_dict (t : Todo) : json :=
  JObj [ ("id", JStr (id t));
         ("title", JStr (title t));
         ("completed", JBool (completed t));
         ("created_at", JStr (created_at t));
         ("completed_at", match completed_at t with
                          | Some s => JStr s
                          | None => JNull
                          end);
         ("timer_minutes", match timer_minutes t with
                           | Some n => JInt n
                           | None => JNull
                           end) ].

Definition field_names : list string :=
  ["id"; "title"; "completed"; "created_at"; "completed_at"; "timer_minutes"].

Definition is_field (k : string) : bool :=
  existsb (String.eqb k) field_names.

(** A keyword argument, if given. *)
Definition kwarg (k : string) (fields : list (string * json)) : option json :=
  PyDict.get k fields.

(** The fields as the annotations type them, [None] for any other value. *)
Definition as_str (v : json) : option string :=
  match v with JStr s => Some s | _ => None end.
Definition as_bool (v : json) : option bool :=
  match v with JBool b => Some b | _ => None end.
Definition as_opt_str (v : json) : option (option string) :=
  match v with JNull => Some None | JStr s => Some (Some s) | _ => None end.
Definition as_opt_int (v : json) : option (option Z) :=
  match v with JNull => Some None | JInt n => Some (Some n) | _ => None end.

(** A field of the constructor call: the keyword argument read at its type,
    or the default of the dataclass. *)
Definition field_or {A} (read : json -> option A) (default : A)
    (k : string) (fields : list (string * json)) : option A :=
  match kwarg k fields with
  | Some v => read v
  | None => Some default
  end.

(** [Todo.from_dict]: the constructor called with the entries of [data] as
    its keyword arguments.  [TypeError] when [data] is no mapping, names a
    keyword that is no field, or lacks [id] or [title]; [now] is the
    [default_factory] of [created_at]. *)
Definition from_dict (now : string) (data : json) : outcome Todo :=
  match data with
  | JObj fields =>
      if negb (forallb (fun kv => is_field (fst kv)) fields) then Raises TypeError
      else
        match kwarg "id" fields, kwarg "title" fields with
        | Some vid, Some vtitle =>
            match as_str vid, as_str vtitle,
                  field_or as_bool false "completed" fields,
                  field_or as_str now "created_at" fields,
                  field_or as_opt_str None "completed_at" fields,
                  field_or as_opt_int None "timer_minutes" fields with
            | Some i, Some t, Some c, Some ca, Some co, Some tm =>
                Returns (Todo.mk i t c ca co tm)
            | _, _, _, _, _, _ => Unannotated
            end
        | _, _ => Raises TypeError
        end
  | _ => Raises TypeError
  end.

(** [for item in data]: a list gives its items, a mapping its keys, a string
    its characters; nothing else is iterable. *)
Definition iterate (data : json) : outcome (list json) :=
  match data with
  | JArr items => Returns items
  | JObj fields => Returns (map (fun kv => JStr (fst kv)) fields)
  | JStr s => Returns (map (fun c => JStr (String c EmptyString)) (list_ascii_of_string s))
  | _ => Raises TypeError
  end.

(** [[Todo.from_dict(item) for item in data]]: the first exception ends the
    comprehension. *)
Fixpoint from_dicts (now : string) (items : list json) : outcome (list Todo) :=
  match items with
  | [] => Returns []
  | item :: rest =>
      match from_dict now item with
      | Raises e => Raises e
      | Returns t =>
          match from_dicts now rest with
          | Returns ts => Returns (t :: ts)
          | other => other
          end
      | Unannotated =>
          match from_dicts now rest with
          | Raises e => Raises e
          | _ => Unannotated
          end
      end
  end.

(** The state of [todos.json]: [None] when the file does not exist. *)
Definition Storage := option file_content.

Definition load_todos (now : string) (todos_file : Storage) : outcome (list Todo) :=
  match todos_file with
  | None => Returns []
  | Some content =>
      except_decode_or_key
        match content with
        | NotJson _ => Raises JSONDecodeError
        | Json data =>
            match iterate data with
            | Returns items => from_dicts now items
            | Raises e => Raises e
            | Unannotated => Unannotated
            end
        end
        []
  end.

Definition save_todos (todos : list Todo) : Storage :=
  Some (Json (JArr (map to_dict todos))).

Definition clear_todos : Storage := save_todos [].
End Storage.

(** ** todo.py: the todo manager

    [self.storage] is the state of [todos.json], [self.todos] the collection.
    A [Todo] of the list is mutated in place by [complete]; the list is its
    only holder, so the list of values is the state. *)

Module TodoManager.
Import Todo.

Record TodoManager := mk {
  storage : Storage.Storage;
  todos : list Todo
}.

(** [load], which [__init__] calls: an exception of [load_todos] is not
    handled here. *)
Definition load (now : string) (m : TodoManager) : outcome TodoManager :=
  match Storage.load_todos now (storage m) with
  | Returns l => Returns {| storage := storage m; todos := l |}
  | Raises e => Raises e
  | Unannotated => Unannotated
  end.

Definition save (m : TodoManager) : TodoManager :=
  {| storage := Storage.save_todos (todos m); todos := todos m |}.

(** The loop of [complete] over [self.todos]: the list with the first match
    marked, and that todo. *)
Fixpoint complete_first (now todo_id : string) (l : list Todo)
    : option (list Todo * Todo) :=
  match l with
  | [] => None
  | todo :: rest =>
      if id_matches (id todo) todo_id
      then Some (mark_complete now todo :: rest, mark_complete now todo)
      else
        match complete_first now todo_id rest with
        | Some (rest', found) => Some (todo :: rest', found)
        | None => None
        end
  end.

Definition complete (now todo_id : string) (m : TodoManager)
    : TodoManager * option Todo :=
  match complete_first now todo_id (todos m) with
  | Some (l, todo) => (save {| storage := storage m; todos := l |}, Some todo)
  | None => (m, None)
  end.

(** The loop of [delete]: the list after [self.todos.pop(i)] at the first
    match. *)
Fixpoint pop_first (todo_id : string) (l : list Todo) : option (list Todo) :=
  match l with
  | [] => None
  | todo :: rest =>
      if id_matches (id todo) todo_id then Some rest
      else
        match pop_first todo_id rest with
        | Some rest' => Some (todo :: rest')
        | None => None
        end
  end.

Definition delete (todo_id : string) (m : TodoManager) : TodoManager * bool :=
  match pop_first todo_id (todos m) with
  | Some l => (save {| storage := storage m; todos := l |}, true)
  | None => (m, false)
  end.

Definition get (todo_id : string) (m : TodoManager) : option Todo :=
  List.find (fun todo => id_matches (id todo) todo_id) (todos m).

Definition list_all (m : TodoManager) : list Todo := todos m.

Definition list_pending (m : TodoManager) : list Todo :=
  List.filter (fun todo => negb (completed todo)) (todos m).

Definition list_completed (m : TodoManager) : list Todo :=
  List.filter (fun todo => completed todo) (todos m).

Definition clear_completed (m : TodoManager) : TodoManager * Z :=
  let original_count := Z.of_nat (length (todos m)) in
  let m' := save {| storage := storage m;
                    todos := List.filter (fun todo => negb (completed todo)) (todos m) |} in
  (m', (original_count - Z.of_nat (length (todos m')))%Z).

Record counts := mk_counts { total : Z; pending : Z; completed_count : Z }.

Definition count (m : TodoManager) : counts :=
  {| total := Z.of_nat (length (todos m));
     pending := Z.of_nat (length (list_pending m));
     completed_count := Z.of_nat (length (list_completed m)) |}.
End TodoManager.

(** ** timer.py: the timer manager

    The manager and the event loop it runs on.  [heap] holds the [Timer]
    objects and [pool] the asyncio tasks, both by reference: [self.timers]
    and every countdown task point to the same timer object, and a task keeps
    running after [self.tasks] has dropped or replaced its handle.

    The event loop is cooperative: between two suspension points a task or a
    manager method runs alone.  [resume_task] is one such run of
    [_run_timer], and when [asyncio.sleep(1)] returns is left to the
    scheduler.  The callbacks are recorded in [calls], with the task that
    made the call; they are taken not to touch the manager. *)

Module TimerManager.
Import Timer.

Inductive status :=
| Scheduled    (* created by [create_task], not yet run *)
| Sleeping     (* suspended in [await asyncio.sleep(1)] *)
| Finished     (* [_run_timer] returned *)
| Cancelled.   (* [cancel()]: no line of the coroutine runs again *)

Record Task := mk_task {
  task_timer : nat;
  task_status : status
}.

(** [task.done()] *)
Definition done (t : Task) : bool :=
  match task_status t with
  | Finished | Cancelled => true
  | Scheduled | Sleeping => false
  end.

Inductive event :=
| OnTick (task : nat)
| OnComplete (task : nat) (ref : nat) (timer : Timer).

Record State := mk {
  heap : list Timer;
  pool : list Task;
  timers : PyDict.dict nat;
  tasks : PyDict.dict nat;
  on_tick : bool;
  on_complete : bool;
  running : bool;
  calls : list event
}.

#[export] Instance Timer_inhabited : Inhabited Timer :=
  populate (Timer.mk "" "" 0 0 "" None false).
#[export] Instance Task_inhabited : Inhabited Task :=
  populate (mk_task 0 Cancelled).

Definition with_heap (h : list Timer) (st : State) : State :=
  mk h (pool st) (timers st) (tasks st) (on_tick st) (on_complete st) (running st) (calls st).
Definition with_pool (p : list Task) (st : State) : State :=
  mk (heap st) p (timers st) (tasks st) (on_tick st) (on_complete st) (running st) (calls st).
Definition with_timers (d : PyDict.dict nat) (st : State) : State :=
  mk (heap st) (pool st) d (tasks st) (on_tick st) (on_complete st) (running st) (calls st).
Definition with_tasks (d : PyDict.dict nat) (st : State) : State :=
  mk (heap st) (pool st) (timers st) d (on_tick st) (on_complete st) (running st) (calls st).
Definition with_running (b : bool) (st : State) : State :=
  mk (heap st) (pool st) (timers st) (tasks st) (on_tick st) (on_complete st) b (calls st).
Definition call (e : event) (st : State) : State :=
  mk (heap st) (pool st) (timers st) (tasks st) (on_tick st) (on_complete st) (running st)
     (calls st ++ [e]).

(** [TimerManager()] *)
Definition init : State := mk [] [] [] [] false false false [].

(** Whether each callback is given is all that matters of it. *)
Definition set_callbacks (tick complete : bool) (st : State) : State :=
  mk (heap st) (pool st) (timers st) (tasks st) tick complete (running st) (calls st).

Definition add_timer (uuid now title : string) (minutes : Z)
    (todo_id : option string) (st : State) : State * nat :=
  let timer := Timer.create uuid now title minutes todo_id in
  let ref := length (heap st) in
  (with_timers (PyDict.set (id timer) ref (timers st))
     (with_heap (heap st ++ [timer]) st), ref).

(** [task.cancel()] *)
Definition cancel (h : nat) (st : State) : State :=
  with_pool (alter (fun t => if done t then t else mk_task (task_timer t) Cancelled)
                   h (pool st)) st.

Definition remove_timer (timer_id : string) (st : State) : State * bool :=
  match List.find (fun tid => id_matches tid timer_id) (PyDict.keys (timers st)) with
  | None => (st, false)
  | Some target_id =>
      let st1 :=
        match PyDict.get target_id (tasks st) with
        | Some h => with_tasks (PyDict.del target_id (tasks st)) (cancel h st)
        | None => st
        end in
      (with_timers (PyDict.del target_id (timers st1)) st1, true)
  end.

(** The timer found, as a reference into [heap]. *)
Definition get_timer (timer_id : string) (st : State) : option nat :=
  match List.find (fun kv => id_matches (fst kv) timer_id) (timers st) with
  | Some (_, ref) => Some ref
  | None => None
  end.

Definition get_active_timers (st : State) : list nat :=
  List.filter (fun ref => negb (is_complete (heap st !!! ref)))
              (PyDict.values (timers st)).

Definition get_all_timers (st : State) : list nat := PyDict.values (timers st).

Definition has_active_timers (st : State) : bool :=
  (0 <? length (get_active_timers st))%nat.

(** [_run_timer] from the test of its [while] on: suspend in the sleep of
    the body, or leave the loop, call [on_complete] and return. *)
Definition loop_test (h ref : nat) (st : State) : State :=
  let timer := heap st !!! ref in
  if (0 <? remaining_seconds timer)%Z && negb (paused timer)
  then with_pool (<[h := mk_task ref Sleeping]> (pool st)) st
  else
    let st1 :=
      if is_complete timer && on_complete st
      then call (OnComplete h ref timer) st
      else st in
    with_pool (<[h := mk_task ref Finished]> (pool st1)) st1.

(** [_run_timer] from the return of [asyncio.sleep(1)] on. *)
Definition after_sleep (h ref : nat) (st : State) : State :=
  let st1 := with_heap (<[ref := fst (tick (heap st !!! ref))]> (heap st)) st in
  let st2 := if on_tick st1 then call (OnTick h) st1 else st1 in
  loop_test h ref st2.

(** The event loop runs task [h] up to its next suspension point. *)
Definition resume_task (h : nat) (st : State) : State :=
  match pool st !! h with
  | Some task =>
      match task_status task with
      | Scheduled => loop_test h (task_timer task) st
      | Sleeping => after_sleep h (task_timer task) st
      | Finished | Cancelled => st
      end
  | None => st
  end.

(** [k in self.tasks and not self.tasks[k].done()] *)
Definition task_running (k : string) (st : State) : bool :=
  match PyDict.get k (tasks st) with
  | Some h => negb (done (pool st !!! h))
  | None => false
  end.

Definition start_timer (timer_id : string) (st : State) : State * bool :=
  match get_timer timer_id st with
  | None => (st, false)
  | Some ref =>
      if task_running timer_id st then (st, false)
      else
        let h := length (pool st) in
        let st1 := with_pool (pool st ++ [mk_task ref Scheduled]) st in
        (with_tasks (PyDict.set (id (heap st !!! ref)) h (tasks st1)) st1, true)
  end.

Definition pause_timer (timer_id : string) (st : State) : State * bool :=
  match get_timer timer_id st with
  | Some ref => (with_heap (alter (set_paused true) ref (heap st)) st, true)
  | None => (st, false)
  end.

Definition resume_timer (timer_id : string) (st : State) : State * bool :=
  match get_timer timer_id st with
  | Some ref =>
      if paused (heap st !!! ref) then
        let st1 := with_heap (alter (set_paused false) ref (heap st)) st in
        (fst (start_timer (id (heap st1 !!! ref)) st1), true)
      else (st, false)
  | None => (st, false)
  end.

Definition start_all (st : State) : State :=
  fold_left
    (fun st timer_id =>
       if negb (task_running timer_id st) then fst (start_timer timer_id st) else st)
    (PyDict.keys (timers st))
    (with_running true st).

Definition stop_all (st : State) : State :=
  let st1 := with_running false st in
  let st2 := fold_left (fun st h => cancel h st) (PyDict.values (tasks st1)) st1 in
  with_tasks [] st2.

Definition cleanup_completed (st : State) : State * Z :=
  let completed_ids :=
    PyDict.keys (List.filter (fun kv => is_complete (heap st !!! snd kv)) (timers st)) in
  (fold_left
     (fun st tid =>
        let st1 := if PyDict.mem tid (tasks st)
                   then with_tasks (PyDict.del tid (tasks st)) st else st in
        with_timers (PyDict.del tid (timers st1)) st1)
     completed_ids st,
   Z.of_nat (length completed_ids)).

(** What can happen to a manager: a call of one of its methods, or the event
    loop resuming a task. *)
Inductive op :=
| SetCallbacks (tick complete : bool)
| AddTimer (uuid now title : string) (minutes : Z) (todo_id : option string)
| RemoveTimer (timer_id : string)
| GetTimer (timer_id : string)
| GetActiveTimers
| GetAllTimers
| HasActiveTimers
| StartTimer (timer_id : string)
| PauseTimer (timer_id : string)
| ResumeTimer (timer_id : string)
| StartAll
| StopAll
| CleanupCompleted
| ResumeTask (h : nat).

Definition exec (st : State) (o : op) : State :=
  match o with
  | SetCallbacks tick complete => set_callbacks tick complete st
  | AddTimer uuid now title minutes todo_id =>
      fst (add_timer uuid now title minutes todo_id st)
  | RemoveTimer timer_id => fst (remove_timer timer_id st)
  | GetTimer _ | GetActiveTimers | GetAllTimers | HasActiveTimers => st
  | StartTimer timer_id => fst (start_timer timer_id st)
  | PauseTimer timer_id => fst (pause_timer timer_id st)
  | ResumeTimer timer_id => fst (resume_timer timer_id st)
  | StartAll => start_all st
  | StopAll => stop_all st
  | CleanupCompleted => fst (cleanup_completed st)
  | ResumeTask h => resume_task h st
  end.

Definition run (ops : list op) (st : State) : State := fold_left exec ops st.


(** The tasks that called [on_complete], in the order of the calls. *)
Definition completing_tasks (st : State) : list nat :=
  flat_map (fun e => match e with
                     | OnComplete h _ _ => [h]
                     | OnTick _ => []
                     end) (calls st).
End TimerManager.

(** ** Properties of manager states *)

Module Inv.
Import Timer TimerManager.
Local Open Scope Z_scope.

(** The invariant of the data model. *)
Definition bounded (t : Timer) : Prop :=
  0 <= remaining_seconds t <= total_seconds t.

(** A timer as [add_timer] makes it and a countdown leaves it: its total is
    a number of minutes, and if that number is not negative the invariant of
    the data model holds. *)
Definition from_minutes (t : Timer) : Prop :=
  (exists minutes : Z, total_seconds t = minutes * 60) /\
  (0 <= total_seconds t -> bounded t).

(** [t'] is a later state of the timer object [t]. *)
Definition timer_le (t t' : Timer) : Prop :=
  id t' = id t /\
  total_seconds t' = total_seconds t /\
  remaining_seconds t' <= remaining_seconds t.

(** Every timer object of [h] is still there in [h'], in a later state. *)
Definition heap_le (h h' : list Timer) : Prop :=
  forall (r : nat) (t : Timer),
    h !! r = Some t -> exists t', h' !! r = Some t' /\ timer_le t t'.

(** A task that has returned stays as it is. *)
Definition pool_keeps (p p' : list Task) : Prop :=
  forall (h r : nat),
    p !! h = Some (mk_task r Finished) -> p' !! h = Some (mk_task r Finished).

(** No callback is called from [st] to [st'], and no returned task revived. *)
Definition quiet (st st' : State) : Prop :=
  calls st' = calls st /\ pool_keeps (pool st) (pool st').

(** [self.timers] maps each id to a timer object that has this id. *)
Definition keyed (st : State) : Prop :=
  forall (k : string) (r : nat),
    In (k, r) (timers st) -> exists t, heap st !! r = Some t /\ id t = k.


(** How an operation can change the timer objects. *)
Inductive heap_change (st : State) (o : op) : list Timer -> Prop :=
| heap_same : heap_change st o (heap st)
| heap_new uuid now title minutes todo_id :
    o = AddTimer uuid now title minutes todo_id ->
    heap_change st o (heap st ++ [Timer.create uuid now title minutes todo_id])
| heap_flag p r : heap_change st o (alter (set_paused p) r (heap st))
| heap_tick r : heap_change st o (<[r := fst (tick (heap st !!! r))]> (heap st)).
End Inv.

(** ** Concrete inputs *)

Module Sample.
Import Todo.

Definition first_abcd : Todo := Todo.mk "abcd1234" "write report" false "2024-01-01T09:00:00" None None.
Definition second_abcd : Todo := Todo.mk "abcd5678" "review notes" false "2024-01-01T09:05:00" None (Some 25%Z).

Definition two_abcd : TodoManager.TodoManager :=
  TodoManager.mk None [first_abcd; second_abcd].

Definition done_todo (i : string) : Todo :=
  Todo.mk i "done" true "2024-01-01T09:00:00" (Some "2024-01-01T10:00:00") None.


(** A file that is valid JSON, with one record that lacks its title. *)
Definition record_without_title : Storage.Storage :=
  Some (Json (JArr [JObj [("id", JStr "a1b2c3d4")]])).

Import TimerManager.

Definition focus_uuid : string := "abcd1234-0000-4000-8000-000000000000".
Definition focus_start : string := "2024-01-01T09:00:00".

(** The one-minute timer "Focus" with [remaining] seconds left. *)
Definition focus_timer (remaining : Z) : Timer.Timer :=
  Timer.mk "abcd1234" "Focus" 60 remaining focus_start None false.

(** [add_timer("Focus", 1)] and [start_timer] by the full id, with an
    [on_complete] callback registered. *)
Definition focus_ops : list op :=
  [SetCallbacks false true;
   AddTimer focus_uuid focus_start "Focus" 1 None;
   StartTimer "abcd1234"].

Definition focus_started : State := run focus_ops init.

(** Task 0 runs up to its first sleep and then wakes sixty times. *)
Definition sixty_ticks : list op := ResumeTask 0 :: repeat (ResumeTask 0) 60.

(** The timer runs out; later the manager is queried and [start_all] is
    called, and the task this creates gets to run. *)
Definition restart_ops : list op :=
  focus_ops ++ sixty_ticks ++ [GetActiveTimers; StartAll; ResumeTask 1].

(** Two countdown tasks of one timer, resumed in turn. *)
Definition both_tasks (rounds : nat) : list op :=
  concat (repeat [ResumeTask 0; ResumeTask 1] rounds).
End Sample.

(** ** The calls of the todo manager, with the write that can fail

    [save_todos] writes text.  A text that UTF-8 cannot encode (a lone
    surrogate, as a command-line argument that is not UTF-8 gives) makes the
    write raise [UnicodeEncodeError] after [open] has emptied the file, and
    what is left is a beginning of the JSON text, which [json.load] rejects.
    Which texts can be encoded, and what had been written when the error
    came, are parameters.  The todo is appended, marked or removed in memory
    before the write, and stays so.  [Storage.save_todos] and the calls of
    [TodoManager] above are these calls on collections that can be
    encoded. *)

Module TodoCalls.
Import Todo.

(** A call returns, or the write of the file raised. *)
Inductive result (A : Type) :=
| Returned (a : A)
| EncodeError.
Arguments Returned {A} a.
Arguments EncodeError {A}.

Inductive op :=
| Add (uuid now title : string) (timer_minutes : option Z)
| Complete (now todo_id : string)
| Delete (todo_id : string)
| Get (todo_id : string)
| ListAll
| ListPending
| ListCompleted
| ClearCompleted
| Count.

Section Calls.
Variable encodable : string -> bool.
Variable written_before : list Todo -> string.

(** Every text of the record can be written. *)
Definition todo_encodable (t : Todo) : bool :=
  encodable (id t) && encodable (title t) && encodable (created_at t) &&
  match completed_at t with
  | Some s => encodable s
  | None => true
  end.

(** [Storage.save_todos]: the file it leaves, and whether it raised. *)
Definition save_todos (todos : list Todo) : Storage.Storage * bool :=
  if forallb todo_encodable todos
  then (Storage.save_todos todos, false)
  else (Some (NotJson (written_before todos)), true).

(** [TodoManager.save] *)
Definition save (m : TodoManager.TodoManager) : TodoManager.TodoManager * bool :=
  (TodoManager.mk (fst (save_todos (TodoManager.todos m))) (TodoManager.todos m),
   snd (save_todos (TodoManager.todos m))).

Definition add (uuid now title : string) (timer_minutes : option Z)
    (m : TodoManager.TodoManager) : TodoManager.TodoManager * result Todo :=
  let todo := Todo.create uuid now title timer_minutes in
  let saved :=
    save (TodoManager.mk (TodoManager.storage m) (TodoManager.todos m ++ [todo])) in
  (fst saved, if snd saved then EncodeError else Returned todo).

Definition complete (now todo_id : string) (m : TodoManager.TodoManager)
    : TodoManager.TodoManager * result (option Todo) :=
  match TodoManager.complete_first now todo_id (TodoManager.todos m) with
  | Some (l, todo) =>
      let saved := save (TodoManager.mk (TodoManager.storage m) l) in
      (fst saved, if snd saved then EncodeError else Returned (Some todo))
  | None => (m, Returned None)
  end.

Definition delete (todo_id : string) (m : TodoManager.TodoManager)
    : TodoManager.TodoManager * result bool :=
  match TodoManager.pop_first todo_id (TodoManager.todos m) with
  | Some l =>
      let saved := save (TodoManager.mk (TodoManager.storage m) l) in
      (fst saved, if snd saved then EncodeError else Returned true)
  | None => (m, Returned false)
  end.

Definition clear_completed (m : TodoManager.TodoManager)
    : TodoManager.TodoManager * result Z :=
  let original_count := Z.of_nat (length (TodoManager.todos m)) in
  let saved :=
    save (TodoManager.mk (TodoManager.storage m)
            (List.filter (fun todo => negb (completed todo)) (TodoManager.todos m))) in
  (fst saved,
   if snd saved then EncodeError
   else Returned (original_count - Z.of_nat (length (TodoManager.todos (fst saved))))%Z).

(** The manager after a call, whether the call returned or raised. *)
Definition exec (m : TodoManager.TodoManager) (o : op) : TodoManager.TodoManager :=
  match o with
  | Add uuid now title timer_minutes => fst (add uuid now title timer_minutes m)
  | Complete now todo_id => fst (complete now todo_id m)
  | Delete todo_id => fst (delete todo_id m)
  | ClearCompleted => fst (clear_completed m)
  | Get _ | ListAll | ListPending | ListCompleted | Count => m
  end.

Definition run (ops : list op) (m : TodoManager.TodoManager) : TodoManager.TodoManager :=
  fold_left exec ops m.

(** The file is what the last write of the collection in memory left. *)
Definition written (m : TodoManager.TodoManager) : Prop :=
  TodoManager.storage m = fst (save_todos (TodoManager.todos m)).
End Calls.
End TodoCalls.

(** ** pomodoro.py: the completion callback

    [on_timer_complete] as it acts on the todo manager.  It prints first:
    [ui.print_timer_complete] renders the title of the timer as markup and
    raises on a title that is not well formed (such as a closing tag alone),
    and so does [ui.print_info] on the title of the todo.  Whether these
    two calls return is a parameter each.  [send_notification] handles its
    own exceptions. *)

Module Pomodoro.
Section Callback.
Variable encodable : string -> bool.
Variable written_before : list Todo.Todo -> string.
Variable print_timer_complete : Timer.Timer -> bool.
Variable print_info : string -> bool.

(** The todo manager after the call, and whether the call raised.
    [if timer.todo_id:] holds for a string that is not empty. *)
Definition on_timer_complete (now : string) (timer : Timer.Timer)
    (m : TodoManager.TodoManager) : TodoManager.TodoManager * bool :=
  if negb (print_timer_complete timer) then (m, true)
  else
    match Timer.todo_id timer with
    | Some todo_id =>
        if String.eqb todo_id "" then (m, false)
        else
          match TodoManager.get todo_id m with
          | Some todo =>
              if negb (Todo.completed todo) then
                match TodoCalls.complete encodable written_before now todo_id m with
                | (m', TodoCalls.EncodeError) => (m', true)
                | (m', TodoCalls.Returned _) =>
                    (m', negb (print_info ("Todo '" ++ Todo.title todo
                                           ++ "' marked as complete")))
                end
              else (m, false)
          | None => (m, false)
          end
    | None => (m, false)
    end.
End Callback.
End Pomodoro.

(** ** The shape of manager states *)

Module Shape.
Import Timer TimerManager.

(** No lookup of the manager leaves its stores: ids are keys once, each key
    of [self.timers] leads to a timer object, each key of [self.tasks] is a
    key of [self.timers] and leads to a task, and each task to a timer
    object. *)
Definition well_formed (st : State) : Prop :=
  NoDup (PyDict.keys (timers st)) /\
  NoDup (PyDict.keys (tasks st)) /\
  (forall (k : string) (r : nat), In (k, r) (timers st) -> (r < length (heap st))%nat) /\
  (forall (k : string) (h : nat),
      In (k, h) (tasks st) ->
      (h < length (pool st))%nat /\ In k (PyDict.keys (timers st))) /\
  (forall (h : nat) (task : Task),
      pool st !! h = Some task -> (task_timer task < length (heap st))%nat).

(** A task that is done stays as it is. *)
Definition keeps_done (p p' : list Task) : Prop :=
  forall (h : nat) (task : Task),
    p !! h = Some task -> done task = true -> p' !! h = Some task.

(** [p'] has the tasks of [p], each for the timer object it was created
    for. *)
Definition pool_shape (p p' : list Task) : Prop :=
  length p' = length p /\
  forall (h : nat) (task' : Task),
    p' !! h = Some task' ->
    exists task, p !! h = Some task /\ task_timer task' = task_timer task.

(** No id of a timer is the beginning of the id of another timer. *)
Definition prefix_free (st : State) : Prop :=
  forall k1 k2 : string,
    In k1 (PyDict.keys (timers st)) -> In k2 (PyDict.keys (timers st)) ->
    id_matches k1 k2 = true -> k1 = k2.

(** A uuid as [uuid.uuid4()] prints it has 36 characters; 8 are enough
    here. *)
Definition long_uuid (o : op) : bool :=
  match o with
  | AddTimer uuid _ _ _ _ => (8 <=? String.length uuid)%nat
  | _ => true
  end.

(** The operations other than [resume_timer]. *)
Definition not_resume_timer (o : op) : bool :=
  match o with
  | ResumeTimer _ => false
  | _ => true
  end.
End Shape.

(** ** The id test *)

Lemma id_matches_spec (stored given : string) :
  id_matches stored given = true <-> stored = given \/ String.prefix given stored = true.
Proof.
  unfold id_matches. rewrite orb_true_iff, String.eqb_eq. tauto.
Qed.

Lemma prefix_empty (s : string) : String.prefix "" s = true.
Proof. destruct s; reflexivity. Qed.

Lemma id_matches_empty (stored : string) : id_matches stored "" = true.
Proof. unfold id_matches. rewrite prefix_empty. apply orb_true_r. Qed.

Lemma id_matches_refl (s : string) : id_matches s s = true.
Proof. unfold id_matches. rewrite String.eqb_refl. reflexivity. Qed.

(** ** Timer.tick *)

Section Tick.
Import Timer.
Local Open Scope Z_scope.

(** C4. One tick takes exactly one second off a timer that has time left and
    is not paused, leaves a paused or finished timer as it is, never takes
    more than one second, and touches no field but [remaining_seconds]. *)
Theorem tick_one_second (t : Timer) :
  (0 < remaining_seconds t -> paused t = false ->
     remaining_seconds (fst (tick t)) = remaining_seconds t - 1) /\
  (paused t = true \/ remaining_seconds t <= 0 -> fst (tick t) = t) /\
  remaining_seconds t - 1 <= remaining_seconds (fst (tick t)) <= remaining_seconds t /\
  fst (tick t) = set_remaining (remaining_seconds (fst (tick t))) t /\
  snd (tick t) = (0 <? remaining_seconds (fst (tick t))).
Proof.
  unfold tick; cbn [fst snd].
  destruct (Z.ltb_spec 0 (remaining_seconds t)) as [Hpos | Hle];
    destruct (paused t) eqn:Hp; cbn [andb negb];
    repeat split; intros; try lia; try discriminate; try reflexivity;
    try (destruct t; reflexivity).
  all: try (cbn; lia).
  all: match goal with H : _ \/ _ |- _ => destruct H; [discriminate | lia] end.
Qed.

Lemma tick_one_second_witness :
  let t := Timer.mk "abcd1234" "Focus" 60 5 "t0" None false in
  remaining_seconds (fst (tick t)) = 4 /\
  fst (tick (set_paused true t)) = set_paused true t.
Proof.
  intros t. split.
  - apply (proj1 (tick_one_second t)); [cbn; lia | reflexivity].
  - apply (proj1 (proj2 (tick_one_second (set_paused true t)))).
    left. reflexivity.
Defined.
End Tick.

(** ** Persistence *)

Section Persistence.
Import Todo Storage.

Lemma from_dict_to_dict (now : string) (t : Todo) :
  from_dict now (to_dict t) = Returns t.
Proof.
  destruct t as [i ti c ca [co |] [tm |]]; reflexivity.
Qed.

Lemma from_dicts_to_dicts (now : string) (l : list Todo) :
  from_dicts now (map to_dict l) = Returns l.
Proof.
  induction l as [| t l IH]; [reflexivity |].
  cbn [map from_dicts]. rewrite from_dict_to_dict, IH. reflexivity.
Qed.

Lemma load_saved (now : string) (l : list Todo) :
  load_todos now (save_todos l) = Returns l.
Proof.
  unfold load_todos, save_todos, iterate.
  rewrite from_dicts_to_dicts. reflexivity.
Qed.

(** C8. Loading what was saved gives back the collection that was saved,
    every field of every todo as it was, a todo that has no [completed_at]
    included. *)
Theorem save_then_load (now : string) (l : list Todo) :
  load_todos now (save_todos l) = Returns l /\
  (forall t, from_dict now (to_dict t) = Returns t) /\
  load_todos now (save_todos [Sample.first_abcd; Sample.done_todo "00000001"])
  = Returns [Sample.first_abcd; Sample.done_todo "00000001"] /\
  completed_at Sample.first_abcd = None.
Proof.
  split; [apply load_saved |].
  split; [apply from_dict_to_dict |].
  split; reflexivity.
Qed.

(** C7, at a file that is corrupted and still JSON: a record without its
    title.  The constructor raises [TypeError], which the handler of
    [load_todos] does not name, while text that is not JSON, and a missing
    file, do give the empty collection. *)
Theorem load_corrupted_record_raises (now : string) :
  load_todos now Sample.record_without_title = Raises TypeError /\
  TodoManager.load now (TodoManager.mk Sample.record_without_title []) = Raises TypeError /\
  load_todos now (Some (Json (JArr [JInt 1]))) = Raises TypeError /\
  load_todos now (Some (Json JNull)) = Raises TypeError /\
  (forall text, load_todos now (Some (NotJson text)) = Returns []) /\
  load_todos now None = Returns [].
Proof.
  repeat split; reflexivity.
Qed.
End Persistence.

(** ** The todo manager *)

Section Todos.
Import Todo TodoManager.

Lemma complete_first_hit (now s : string) (pre post : list Todo) (t : Todo) :
  Forall (fun x => id_matches (id x) s = false) pre ->
  id_matches (id t) s = true ->
  complete_first now s (pre ++ t :: post)
  = Some (pre ++ mark_complete now t :: post, mark_complete now t).
Proof.
  intros Hpre Ht. induction Hpre as [| x pre Hx _ IH]; cbn.
  - rewrite Ht. reflexivity.
  - rewrite Hx, IH. reflexivity.
Qed.

Lemma complete_first_miss (now s : string) (l : list Todo) :
  Forall (fun x => id_matches (id x) s = false) l ->
  complete_first now s l = None.
Proof.
  induction 1 as [| x l Hx _ IH]; cbn; [reflexivity |].
  rewrite Hx, IH. reflexivity.
Qed.



Lemma filter_lengths {A} (p : A -> bool) (l : list A) :
  (length l = length (List.filter p l) + length (List.filter (fun x => negb (p x)) l))%nat.
Proof.
  induction l as [| x l IH]; cbn; [reflexivity |].
  destruct (p x); cbn; lia.
Qed.

End Todos.

(** ** Dictionaries *)

Section DictFacts.
Context {V : Type}.
Implicit Types (d : PyDict.dict V) (k : string) (v : V).

Lemma get_set_same k v d : PyDict.get k (PyDict.set k v d) = Some v.
Proof.
  induction d as [| [k' v'] d IH]; cbn.
  - rewrite String.eqb_refl. reflexivity.
  - destruct (String.eqb k' k) eqn:E; cbn; rewrite E; [reflexivity | exact IH].
Qed.

Lemma in_set k v d k0 v0 :
  In (k0, v0) (PyDict.set k v d) -> In (k0, v0) d \/ (k0 = k /\ v0 = v).
Proof.
  induction d as [| [k' v'] d IH]; cbn.
  - intros [[= <- <-] | []]. right. split; reflexivity.
  - destruct (String.eqb_spec k' k) as [-> | Hne]; cbn.
    + intros [[= <- <-] | Hin]; [right; split; reflexivity | left; right; exact Hin].
    + intros [Heq | Hin]; [left; left; exact Heq |].
      destruct (IH Hin) as [H | H]; [left; right; exact H | right; exact H].
Qed.

Lemma in_del k d k0 v0 : In (k0, v0) (PyDict.del k d) -> In (k0, v0) d.
Proof.
  induction d as [| [k' v'] d IH]; cbn; [tauto |].
  destruct (String.eqb k' k); cbn; [tauto |].
  intros [Heq | Hin]; [left; exact Heq | right; apply IH, Hin].
Qed.
End DictFacts.

(** ** Prefixes *)

Lemma prefix_trans (a b c : string) :
  String.prefix a b = true -> String.prefix b c = true -> String.prefix a c = true.
Proof.
  revert b c. induction a as [| x a IH]; intros b c Hab Hbc; [destruct c; reflexivity |].
  destruct b as [| y b]; [discriminate |].
  destruct c as [| z c]; [discriminate |].
  cbn in *.
  destruct (ascii_dec x y) as [-> | ]; [| discriminate].
  destruct (ascii_dec y z) as [-> | ]; [| discriminate].
  eapply IH; eassumption.
Qed.

Lemma id_matches_trans (k0 k s : string) :
  id_matches k s = true -> id_matches k0 k = true -> id_matches k0 s = true.
Proof.
  rewrite !id_matches_spec. intros [-> | Hsk] [-> | Hk]; auto.
  right. eapply prefix_trans; eassumption.
Qed.

(** ** The timer manager: what each operation leaves alone *)

Section Frames.
Import Timer TimerManager Inv.
Local Open Scope Z_scope.

Lemma fold_left_preserves {A B} (P : A -> Prop) (f : A -> B -> A) (l : list B) :
  (forall a b, P a -> P (f a b)) -> forall a, P a -> P (fold_left f l a).
Proof.
  intros Hf. induction l as [| b l IH]; cbn; intros a Ha; [exact Ha |].
  apply IH, Hf, Ha.
Qed.

Lemma timer_le_refl t : timer_le t t.
Proof. unfold timer_le. repeat split; lia. Qed.

Lemma timer_le_trans t1 t2 t3 : timer_le t1 t2 -> timer_le t2 t3 -> timer_le t1 t3.
Proof. unfold timer_le. intros (? & ? & ?) (? & ? & ?). repeat split; try congruence; lia. Qed.

Lemma heap_le_refl h : heap_le h h.
Proof. intros r t Hr. exists t. split; [exact Hr | apply timer_le_refl]. Qed.

Lemma heap_le_trans h1 h2 h3 : heap_le h1 h2 -> heap_le h2 h3 -> heap_le h1 h3.
Proof.
  intros H12 H23 r t Hr.
  destruct (H12 r t Hr) as (t2 & Hr2 & Hle2).
  destruct (H23 r t2 Hr2) as (t3 & Hr3 & Hle3).
  exists t3. split; [exact Hr3 | eapply timer_le_trans; eassumption].
Qed.

Lemma heap_le_app h t : heap_le h (h ++ [t]).
Proof.
  intros r t0 Hr. exists t0. split; [| apply timer_le_refl].
  rewrite lookup_app_l; [exact Hr | eapply lookup_lt_Some, Hr].
Qed.

Lemma heap_le_alter (f : Timer -> Timer) h r :
  (forall t, timer_le t (f t)) -> heap_le h (alter f r h).
Proof.
  intros Hf r0 t Hr0. destruct (decide (r = r0)) as [<- | Hne].
  - exists (f t). rewrite list_lookup_alter_eq, Hr0. split; [reflexivity | apply Hf].
  - exists t. rewrite list_lookup_alter_ne by exact Hne.
    split; [exact Hr0 | apply timer_le_refl].
Qed.

Lemma tick_le t : timer_le t (fst (tick t)).
Proof.
  unfold timer_le, tick; cbn [fst].
  destruct ((0 <? remaining_seconds t) && negb (paused t)); cbn; repeat split; lia.
Qed.

Lemma tick_bounded t : bounded t -> bounded (fst (tick t)).
Proof.
  unfold bounded, tick; cbn [fst].
  destruct (Z.ltb_spec 0 (remaining_seconds t)); destruct (paused t); cbn; lia.
Qed.

Lemma heap_le_tick (h : list Timer) r : heap_le h (<[r := fst (tick (h !!! r))]> h).
Proof.
  intros r0 t Hr0. destruct (decide (r = r0)) as [<- | Hne].
  - exists (fst (tick t)). rewrite (list_lookup_total_correct _ _ _ Hr0).
    rewrite list_lookup_insert_eq by (eapply lookup_lt_Some, Hr0).
    split; [reflexivity | apply tick_le].
  - exists t. rewrite list_lookup_insert_ne by exact Hne.
    split; [exact Hr0 | apply timer_le_refl].
Qed.

Lemma heap_cancel h st : heap (cancel h st) = heap st.
Proof. reflexivity. Qed.

Lemma heap_start_timer s st : heap (fst (start_timer s st)) = heap st.
Proof.
  unfold start_timer. destruct (get_timer s st); [| reflexivity].
  destruct (task_running s st); reflexivity.
Qed.

Lemma heap_remove_timer s st : heap (fst (remove_timer s st)) = heap st.
Proof.
  unfold remove_timer. destruct (List.find _ _); [| reflexivity].
  destruct (PyDict.get _ _); reflexivity.
Qed.

Lemma heap_start_all st : heap (start_all st) = heap st.
Proof.
  unfold start_all.
  apply (fold_left_preserves (fun st' => heap st' = heap st)); [| reflexivity].
  intros a b Ha. destruct (negb _); [| exact Ha].
  rewrite heap_start_timer. exact Ha.
Qed.

Lemma heap_stop_all st : heap (stop_all st) = heap st.
Proof.
  unfold stop_all. cbn [heap with_tasks].
  apply (fold_left_preserves (fun st' => heap st' = heap st)); [| reflexivity].
  intros a b Ha. exact Ha.
Qed.

Lemma heap_cleanup st : heap (fst (cleanup_completed st)) = heap st.
Proof.
  unfold cleanup_completed. cbn [fst].
  apply (fold_left_preserves (fun st' => heap st' = heap st)); [| reflexivity].
  intros a b Ha. destruct (PyDict.mem _ _); exact Ha.
Qed.

Lemma heap_loop_test h r st : heap (loop_test h r st) = heap st.
Proof.
  unfold loop_test. destruct (_ && negb _); [reflexivity |].
  destruct (_ && on_complete st); reflexivity.
Qed.

Lemma heap_exec st o : heap_change st o (heap (exec st o)).
Proof.
  destruct o; cbn [exec];
    try (rewrite ?heap_start_timer, ?heap_remove_timer, ?heap_start_all,
           ?heap_stop_all, ?heap_cleanup; exact (heap_same _ _)).
  - eapply heap_new. reflexivity.
  - unfold pause_timer. destruct (get_timer _ _); [apply heap_flag | apply heap_same].
  - unfold resume_timer. destruct (get_timer _ _); [| apply heap_same].
    destruct (paused _); [| apply heap_same].
    cbn [fst]. rewrite heap_start_timer. apply heap_flag.
  - unfold resume_task. destruct (pool st !! h) as [task |]; [| apply heap_same].
    destruct (task_status task); try apply heap_same.
    + rewrite heap_loop_test. apply heap_same.
    + unfold after_sleep. rewrite heap_loop_test.
      destruct (on_tick _); apply heap_tick.
Qed.

Lemma exec_heap_le st o : heap_le (heap st) (heap (exec st o)).
Proof.
  destruct (heap_exec st o).
  - apply heap_le_refl.
  - apply heap_le_app.
  - apply heap_le_alter. intros t. unfold timer_le. cbn. repeat split; lia.
  - apply heap_le_tick.
Qed.

Lemma run_heap_le ops st : heap_le (heap st) (heap (run ops st)).
Proof.
  revert st. induction ops as [| o ops IH]; intros st; [apply heap_le_refl |].
  cbn. eapply heap_le_trans; [apply exec_heap_le | apply IH].
Qed.

Lemma tick_from_minutes t : from_minutes t -> from_minutes (fst (tick t)).
Proof.
  intros [Hmin Hb]. pose proof (tick_le t) as (_ & Htot & _).
  split; [rewrite Htot; exact Hmin |].
  rewrite Htot. intros H. apply tick_bounded, Hb, H.
Qed.

Lemma exec_from_minutes st o :
  Forall from_minutes (heap st) -> Forall from_minutes (heap (exec st o)).
Proof.
  intros Hb. destruct (heap_exec st o) as [| uuid now title minutes todo_id _ | p r | r].
  - exact Hb.
  - apply Forall_app. split; [exact Hb |]. constructor; [| constructor].
    split; [exists minutes; reflexivity |]. unfold bounded. cbn. lia.
  - apply Forall_lookup. intros i t Hi.
    destruct (decide (r = i)) as [<- | Hne].
    + rewrite list_lookup_alter_eq in Hi.
      destruct (heap st !! r) as [t0 |] eqn:Hr; [| discriminate].
      injection Hi as <-. rewrite Forall_lookup in Hb. apply (Hb r t0 Hr).
    + rewrite list_lookup_alter_ne in Hi by exact Hne.
      rewrite Forall_lookup in Hb. apply (Hb i t Hi).
  - apply Forall_lookup. intros i t Hi.
    destruct (decide (r = i)) as [<- | Hne].
    + destruct (heap st !! r) as [t0 |] eqn:Hr.
      * rewrite (list_lookup_total_correct _ _ _ Hr) in Hi.
        rewrite list_lookup_insert_eq in Hi by (eapply lookup_lt_Some, Hr).
        injection Hi as <-. apply tick_from_minutes.
        rewrite Forall_lookup in Hb. apply (Hb r t0 Hr).
      * rewrite list_insert_ge in Hi by (apply lookup_ge_None, Hr). congruence.
    + rewrite list_lookup_insert_ne in Hi by exact Hne.
      rewrite Forall_lookup in Hb. apply (Hb i t Hi).
Qed.

Lemma run_from_minutes ops st :
  Forall from_minutes (heap st) -> Forall from_minutes (heap (run ops st)).
Proof.
  revert st. induction ops as [| o ops IH]; intros st Hb; [exact Hb |].
  cbn. apply IH, exec_from_minutes, Hb.
Qed.
End Frames.

Section Keys.
Import Timer TimerManager Inv.

Lemma timers_start_timer s st : timers (fst (start_timer s st)) = timers st.
Proof.
  unfold start_timer. destruct (get_timer s st); [| reflexivity].
  destruct (task_running s st); reflexivity.
Qed.

Lemma timers_loop_test h r st : timers (loop_test h r st) = timers st.
Proof.
  unfold loop_test. destruct (_ && negb _); [reflexivity |].
  destruct (_ && on_complete st); reflexivity.
Qed.

Lemma timers_start_all st : timers (start_all st) = timers st.
Proof.
  unfold start_all.
  apply (fold_left_preserves (fun st' => timers st' = timers st)); [| reflexivity].
  intros a b Ha. destruct (negb _); [| exact Ha].
  rewrite timers_start_timer. exact Ha.
Qed.

Lemma timers_stop_all st : timers (stop_all st) = timers st.
Proof.
  unfold stop_all. cbn [timers with_tasks].
  apply (fold_left_preserves (fun st' => timers st' = timers st)); [| reflexivity].
  intros a b Ha. exact Ha.
Qed.

Lemma timers_resume_task h st : timers (resume_task h st) = timers st.
Proof.
  unfold resume_task. destruct (pool st !! h) as [task |]; [| reflexivity].
  destruct (task_status task); try reflexivity.
  - apply timers_loop_test.
  - unfold after_sleep. rewrite timers_loop_test. destruct (on_tick _); reflexivity.
Qed.

Lemma timers_exec st o k r :
  In (k, r) (timers (exec st o)) ->
  In (k, r) (timers st) \/
  exists uuid now title minutes todo_id,
    o = AddTimer uuid now title minutes todo_id /\
    k = id (Timer.create uuid now title minutes todo_id) /\
    r = length (heap st).
Proof.
  destruct o; cbn [exec];
    rewrite ?timers_start_timer, ?timers_start_all, ?timers_stop_all,
      ?timers_resume_task; try (intros Hin; left; exact Hin).
  - cbn. intros Hin. apply in_set in Hin. destruct Hin as [Hin | [-> ->]].
    + left. exact Hin.
    + right. repeat eexists.
  - unfold remove_timer. destruct (List.find _ _); [| intros Hin; left; exact Hin].
    destruct (PyDict.get _ _); cbn; intros Hin; left; eapply in_del, Hin.
  - unfold pause_timer. destruct (get_timer _ _); intros Hin; left; exact Hin.
  - unfold resume_timer. destruct (get_timer _ _); [| intros Hin; left; exact Hin].
    destruct (paused _); [| intros Hin; left; exact Hin].
    cbn [fst]. rewrite timers_start_timer. intros Hin; left; exact Hin.
  - unfold cleanup_completed. cbn [fst]. intros Hin. left. revert Hin.
    apply (fold_left_preserves
             (fun st' => In (k, r) (timers st') -> In (k, r) (timers st)));
      [| intros Hin; exact Hin].
    intros a b Ha Hin. apply Ha.
    destruct (PyDict.mem _ _); cbn in Hin; eapply in_del, Hin.
Qed.

Lemma keyed_exec st o : keyed st -> keyed (exec st o).
Proof.
  intros Hk k r Hin. apply timers_exec in Hin.
  destruct Hin as [Hin | (uuid & now & title & minutes & todo_id & -> & -> & ->)].
  - destruct (Hk k r Hin) as (t & Hr & Hid).
    destruct (exec_heap_le st o r t Hr) as (t' & Hr' & Hid' & _).
    exists t'. split; [exact Hr' | congruence].
  - eexists. split; [| reflexivity]. cbn.
    apply list_lookup_middle. reflexivity.
Qed.

Lemma keyed_run ops st : keyed st -> keyed (run ops st).
Proof.
  revert st. induction ops as [| o ops IH]; intros st Hk; [exact Hk |].
  cbn. apply IH, keyed_exec, Hk.
Qed.

Lemma keyed_init : keyed init.
Proof. intros k r []. Qed.

(** A lookup by the full id of the timer found finds the same timer. *)
Lemma get_timer_by_found_id s st r :
  keyed st -> get_timer s st = Some r ->
  exists t, heap st !! r = Some t /\ id_matches (id t) s = true /\
            get_timer (id t) st = Some r.
Proof.
  unfold get_timer, keyed. generalize (heap st) as hp. generalize (timers st) as d.
  induction d as [| [k0 r0] d IH]; intros hp Hk Hfind; [discriminate |].
  cbn in Hfind |- *. destruct (id_matches k0 s) eqn:Hm.
  - injection Hfind as <-.
    destruct (Hk k0 r0 (or_introl eq_refl)) as (t & Hr & <-).
    exists t. rewrite id_matches_refl. repeat split; assumption.
  - destruct (IH hp) as (t & Hr & Hs & Hfound).
    + intros k r1 Hin. apply Hk. right. exact Hin.
    + exact Hfind.
    + exists t. repeat split; try assumption.
      destruct (id_matches k0 (id t)) eqn:Hm0; [| exact Hfound].
      rewrite (id_matches_trans k0 (id t) s Hs Hm0) in Hm. discriminate.
Qed.
End Keys.

Section Calls.
Import Timer TimerManager Inv.

Lemma pool_keeps_refl p : pool_keeps p p.
Proof. intros h r H. exact H. Qed.

Lemma quiet_refl st : quiet st st.
Proof. split; [reflexivity | apply pool_keeps_refl]. Qed.

Lemma quiet_trans st1 st2 st3 : quiet st1 st2 -> quiet st2 st3 -> quiet st1 st3.
Proof.
  intros [Hc12 Hp12] [Hc23 Hp23]. split; [congruence |].
  intros h r H. apply Hp23, Hp12, H.
Qed.

Lemma quiet_same st st' : pool st' = pool st -> calls st' = calls st -> quiet st st'.
Proof. intros Hp Hc. split; [exact Hc |]. rewrite Hp. apply pool_keeps_refl. Qed.

Lemma quiet_cancel h st : quiet st (cancel h st).
Proof.
  split; [reflexivity |]. intros h0 r H. cbn.
  destruct (decide (h = h0)) as [<- | Hne].
  - rewrite list_lookup_alter_eq, H. reflexivity.
  - rewrite list_lookup_alter_ne by exact Hne. exact H.
Qed.

Lemma quiet_start_timer s st : quiet st (fst (start_timer s st)).
Proof.
  unfold start_timer. destruct (get_timer s st); [| apply quiet_refl].
  destruct (task_running s st); [apply quiet_refl |].
  split; [reflexivity |]. intros h r H. cbn.
  rewrite lookup_app_l; [exact H | eapply lookup_lt_Some, H].
Qed.

Lemma quiet_fold {B} (f : State -> B -> State) (l : list B) st :
  (forall a b, quiet a (f a b)) -> quiet st (fold_left f l st).
Proof.
  intros Hf. apply (fold_left_preserves (fun st' => quiet st st')); [| apply quiet_refl].
  intros a b Ha. eapply quiet_trans; [exact Ha | apply Hf].
Qed.

Lemma quiet_exec st o : (forall h, o <> ResumeTask h) -> quiet st (exec st o).
Proof.
  intros Ho. destruct o; cbn [exec];
    try (apply quiet_same; reflexivity); try apply quiet_start_timer.
  - unfold remove_timer. destruct (List.find _ _); [| apply quiet_refl].
    destruct (PyDict.get _ _) as [h |]; [| apply quiet_same; reflexivity].
    eapply quiet_trans; [apply (quiet_cancel h) | apply quiet_same; reflexivity].
  - unfold pause_timer. destruct (get_timer _ _); apply quiet_same; reflexivity.
  - unfold resume_timer. destruct (get_timer _ _); [| apply quiet_refl].
    destruct (paused _); [| apply quiet_refl].
    cbn [fst]. eapply quiet_trans; [| apply quiet_start_timer].
    apply quiet_same; reflexivity.
  - unfold start_all. eapply quiet_trans; [| apply quiet_fold].
    + apply quiet_same; reflexivity.
    + intros a b. destruct (negb _); [apply quiet_start_timer | apply quiet_refl].
  - unfold stop_all.
    eapply quiet_trans; [| apply quiet_same; reflexivity].
    eapply quiet_trans; [| apply quiet_fold; intros a b; apply quiet_cancel].
    apply quiet_same; reflexivity.
  - unfold cleanup_completed. cbn [fst]. apply quiet_fold.
    intros a b. destruct (PyDict.mem _ _); apply quiet_same; reflexivity.
  - destruct (Ho h). reflexivity.
Qed.









End Calls.

(** ** The timer manager: starting, resuming, completing *)

Section Manager.
Import Timer TimerManager Inv.
Local Open Scope Z_scope.

Lemma start_timer_no_match s st :
  get_timer s st = None -> start_timer s st = (st, false).
Proof. intros H. unfold start_timer. rewrite H. reflexivity. Qed.

Lemma start_timer_guard s st :
  task_running s st = true -> start_timer s st = (st, false).
Proof.
  intros H. unfold start_timer. destruct (get_timer s st); [| reflexivity].
  rewrite H. reflexivity.
Qed.

(** C1, at a timer that is counting down and is started again by a prefix
    of its id.  [start_timer] tests [self.tasks] under the string it was
    given, not under the id of the timer it found: the call returns [True]
    and a second task counts the same timer down.  The two tasks then take
    two seconds off per second and each calls [on_complete]. *)
Theorem start_timer_by_prefix_starts_second_task :
  let st := Sample.focus_started in
  get_timer "abcd" st = Some 0%nat /\
  task_running "abcd1234" st = true /\
  start_timer "abcd1234" st = (st, false) /\
  snd (start_timer "abcd" st) = true /\
  pool (fst (start_timer "abcd" st)) = [mk_task 0 Scheduled; mk_task 0 Scheduled] /\
  heap (run (Sample.both_tasks 16) (fst (start_timer "abcd" st))) = [Sample.focus_timer 30] /\
  calls (run (Sample.both_tasks 32) (fst (start_timer "abcd" st)))
  = [OnComplete 1 0 (Sample.focus_timer 0); OnComplete 0 0 (Sample.focus_timer 0)].
Proof.
  vm_compute. repeat split; reflexivity.
Qed.


Lemma run_app ops1 ops2 st : run (ops1 ++ ops2) st = run ops2 (run ops1 st).
Proof. unfold run. apply fold_left_app. Qed.



(** C3. Whatever the manager and the event loop do, a timer added with a
    duration that is not negative keeps [0 <= remaining_seconds <=
    total_seconds], whatever the durations of the other timers; its
    remaining time never grows, and once it is complete it stays complete.
    The total of a timer is sixty times the minutes it was added with, so
    that the duration was not negative exactly when the total is not. *)
Theorem remaining_within_bounds (ops more : list op) (r : nat) (t : Timer)
    (Hr : heap (run ops init) !! r = Some t)
    (Hmin : 0 <= total_seconds t) :
  (exists minutes, 0 <= minutes /\ total_seconds t = minutes * 60) /\
  0 <= remaining_seconds t <= total_seconds t /\
  exists t',
    heap (run more (run ops init)) !! r = Some t' /\
    total_seconds t' = total_seconds t /\
    remaining_seconds t' <= remaining_seconds t /\
    implb (is_complete t) (is_complete t') = true.
Proof.
  pose proof (run_from_minutes ops init (Forall_nil_2 _)) as Hb.
  rewrite Forall_lookup in Hb. destruct (Hb r t Hr) as [[minutes Hminutes] Hbound].
  split; [exists minutes; split; [lia | exact Hminutes] |].
  split; [exact (Hbound Hmin) |].
  destruct (run_heap_le more (run ops init) r t Hr) as (t' & Hr' & _ & Htot & Hrem).
  exists t'. repeat split; try assumption.
  unfold is_complete.
  destruct (Z.leb_spec (remaining_seconds t) 0);
    destruct (Z.leb_spec (remaining_seconds t') 0); cbn; try reflexivity; lia.
Qed.

Lemma remaining_within_bounds_witness :
  let ops := AddTimer "0bad0000-0000-4000-8000-000000000000" Sample.focus_start
               "Bad" (-5) None :: Sample.focus_ops ++ Sample.sixty_ticks in
  (exists minutes,
      0 <= minutes /\ total_seconds (Sample.focus_timer 0) = minutes * 60) /\
  0 <= remaining_seconds (Sample.focus_timer 0) <= total_seconds (Sample.focus_timer 0) /\
  exists t',
    heap (run [StartAll; ResumeTask 1; ResumeTask 2] (run ops init)) !! 1%nat = Some t' /\
    total_seconds t' = total_seconds (Sample.focus_timer 0) /\
    remaining_seconds t' <= remaining_seconds (Sample.focus_timer 0) /\
    implb (is_complete (Sample.focus_timer 0)) (is_complete t') = true.
Proof.
  intros ops.
  apply (remaining_within_bounds ops [StartAll; ResumeTask 1; ResumeTask 2] 1
           (Sample.focus_timer 0)).
  - vm_compute. reflexivity.
  - vm_compute. discriminate.
Defined.
End Manager.

Section Resume.
Import Timer TimerManager Inv.

(** C5 fails: a timer that is found and is not paused makes [resume_timer]
    return [False]. *)
Lemma resume_timer_not_paused_returns_false :
  get_timer "abcd1234" Sample.focus_started = Some 0 /\
  paused (heap Sample.focus_started !!! 0) = false /\
  resume_timer "abcd1234" Sample.focus_started = (Sample.focus_started, false).
Proof.
  vm_compute. repeat split; reflexivity.
Qed.

(** C5, amended.  [resume_timer] returns true exactly when a timer matches
    the id and is paused: it then clears the flag and leaves a countdown task
    active for the timer, a new one only if none was active.  When no timer
    matches, or the timer found is not paused, it returns false and changes
    nothing. *)
Theorem resume_timer_paused_only (ops : list op) (s : string) :
  let st := run ops init in
  match get_timer s st with
  | None => resume_timer s st = (st, false)
  | Some r =>
      exists t,
        heap st !! r = Some t /\
        id_matches (id t) s = true /\
        if paused t then
          let st' := fst (resume_timer s st) in
          snd (resume_timer s st) = true /\
          heap st' = <[r := set_paused false t]> (heap st) /\
          task_running (id t) st' = true /\
          pool st' = (if task_running (id t) st then pool st
                      else pool st ++ [mk_task r Scheduled])
        else resume_timer s st = (st, false)
  end.
Proof.
  intros st. pose proof (keyed_run ops init keyed_init) as Hk. fold st in Hk.
  destruct (get_timer s st) as [r |] eqn:Hget.
  2: { unfold resume_timer. rewrite Hget. reflexivity. }
  destruct (get_timer_by_found_id s st r Hk Hget) as (t & Hr & Hs & Hfound).
  exists t. split; [exact Hr |]. split; [exact Hs |].
  unfold resume_timer. rewrite Hget, (list_lookup_total_correct _ _ _ Hr).
  destruct (paused t) eqn:Hp; [| reflexivity].
  cbn [fst snd].
  set (st1 := with_heap (alter (set_paused false) r (heap st)) st).
  assert (Hr1 : heap st1 !! r = Some (set_paused false t)).
  { unfold st1. cbn. rewrite list_lookup_alter_eq, Hr. reflexivity. }
  rewrite (list_lookup_total_correct _ _ _ Hr1).
  change (id (set_paused false t)) with (id t).
  assert (Hheap : heap st1 = <[r := set_paused false t]> (heap st)).
  { unfold st1. cbn. apply list_eq. intros i.
    destruct (decide (r = i)) as [<- | Hne].
    - rewrite list_lookup_alter_eq, Hr.
      rewrite list_lookup_insert_eq by (eapply lookup_lt_Some, Hr). reflexivity.
    - rewrite list_lookup_alter_ne, list_lookup_insert_ne by exact Hne. reflexivity. }
  split; [reflexivity |].
  unfold start_timer.
  change (get_timer (id t) st1) with (get_timer (id t) st). rewrite Hfound.
  change (task_running (id t) st1) with (task_running (id t) st).
  destruct (task_running (id t) st) eqn:Hrun; cbn [fst].
  - split; [exact Hheap |]. split; [exact Hrun | reflexivity].
  - split; [exact Hheap |]. split; [| reflexivity].
    rewrite (list_lookup_total_correct _ _ _ Hr1).
    change (id (set_paused false t)) with (id t).
    unfold task_running. cbn. rewrite get_set_same.
    rewrite (list_lookup_total_correct _ _ (mk_task r Scheduled)); [reflexivity |].
    apply list_lookup_middle. reflexivity.
Qed.
End Resume.

Section EmptyId.
Import TimerManager.

(** C10. The empty string is a prefix of every id: on a collection that is
    not empty, [get], [complete] and [delete] called with it take the todo
    inserted first, and [get_timer] finds the timer inserted first. *)
Theorem empty_id_takes_first (now : string)
    (m : TodoManager.TodoManager) (t : Todo.Todo) (rest : list Todo.Todo)
    (st : State) (k : string) (r : nat) (others : PyDict.dict nat)
    (Hm : TodoManager.todos m = t :: rest)
    (Hst : timers st = (k, r) :: others) :
  TodoManager.get "" m = Some t /\
  TodoManager.complete now "" m
  = (TodoManager.save
       (TodoManager.mk (TodoManager.storage m) (Todo.mark_complete now t :: rest)),
     Some (Todo.mark_complete now t)) /\
  TodoManager.delete "" m
  = (TodoManager.save (TodoManager.mk (TodoManager.storage m) rest), true) /\
  get_timer "" st = Some r.
Proof.
  unfold TodoManager.get, TodoManager.complete, TodoManager.delete, get_timer.
  rewrite Hm, Hst. cbn. rewrite !id_matches_empty. repeat split; reflexivity.
Qed.

Lemma empty_id_takes_first_witness :
  let now := "2024-01-02T08:00:00" in
  TodoManager.get "" Sample.two_abcd = Some Sample.first_abcd /\
  TodoManager.complete now "" Sample.two_abcd
  = (TodoManager.save
       (TodoManager.mk None [Todo.mark_complete now Sample.first_abcd; Sample.second_abcd]),
     Some (Todo.mark_complete now Sample.first_abcd)) /\
  TodoManager.delete "" Sample.two_abcd
  = (TodoManager.save (TodoManager.mk None [Sample.second_abcd]), true) /\
  get_timer "" Sample.focus_started = Some 0.
Proof.
  intros now.
  apply (empty_id_takes_first now Sample.two_abcd Sample.first_abcd [Sample.second_abcd]
           Sample.focus_started "abcd1234" 0 []).
  - reflexivity.
  - vm_compute. reflexivity.
Defined.
End EmptyId.

(** ** More on the todo manager *)

Section TodoExtras.
Import Todo TodoManager.



(** The first match of a list, with what stands before and after it. *)
Lemma find_split (s : string) (l : list Todo) :
  match List.find (fun todo => id_matches (id todo) s) l with
  | Some t => exists pre post,
      l = pre ++ t :: post /\
      Forall (fun x => id_matches (id x) s = false) pre /\
      id_matches (id t) s = true
  | None => Forall (fun x => id_matches (id x) s = false) l
  end.
Proof.
  induction l as [| x l IH]; cbn; [constructor |].
  destruct (id_matches (id x) s) eqn:Hx.
  - exists [], l. repeat split; [constructor | exact Hx].
  - destruct (List.find _ l) as [t |].
    + destruct IH as (pre & post & -> & Hpre & Ht).
      exists (x :: pre), post. repeat split; [constructor; assumption | exact Ht].
    + constructor; assumption.
Qed.




(** X3. Completing again only stamps the time again: a second [complete]
    of the same id gives what a single [complete] at the later time gives,
    the collection and the returned todo alike. *)
Theorem complete_again (now1 now2 s : string) (m : TodoManager) :
  complete now2 s (fst (complete now1 s m)) = complete now2 s m.
Proof.
  pose proof (find_split s (todos m)) as H.
  destruct (List.find _ (todos m)) as [t |].
  - destruct H as (pre & post & Hm & Hpre & Ht).
    unfold complete at 2 3.
    rewrite Hm, (complete_first_hit now1 s pre post t Hpre Ht),
      (complete_first_hit now2 s pre post t Hpre Ht).
    cbn [fst]. unfold complete, save. cbn [todos storage].
    rewrite (complete_first_hit now2 s pre post (mark_complete now1 t) Hpre Ht).
    reflexivity.
  - unfold complete at 2. rewrite (complete_first_miss now1 s _ H). reflexivity.
Qed.
End TodoExtras.

Section TodoWrites.
Import Todo TodoManager.

Lemma calls_exec_same_or_written encodable written_before (m : TodoManager)
    (o : TodoCalls.op) :
  TodoCalls.exec encodable written_before m o = m \/
  TodoCalls.written encodable written_before
    (TodoCalls.exec encodable written_before m o).
Proof.
  destruct o; cbn [TodoCalls.exec]; try (left; reflexivity).
  - right. reflexivity.
  - unfold TodoCalls.complete. destruct (complete_first _ _ _) as [[l t] |];
      [right; reflexivity | left; reflexivity].
  - unfold TodoCalls.delete. destruct (pop_first _ _) as [l |];
      [right; reflexivity | left; reflexivity].
  - right. reflexivity.
Qed.

Lemma calls_run_same_or_written encodable written_before (ops : list TodoCalls.op)
    (m : TodoManager) :
  TodoCalls.run encodable written_before ops m = m \/
  TodoCalls.written encodable written_before
    (TodoCalls.run encodable written_before ops m).
Proof.
  revert m. induction ops as [| o ops IH]; intros m; [left; reflexivity |].
  cbn [TodoCalls.run fold_left].
  fold (TodoCalls.run encodable written_before ops
          (TodoCalls.exec encodable written_before m o)).
  destruct (IH (TodoCalls.exec encodable written_before m o)) as [Hsame | Hw];
    [| right; exact Hw].
  rewrite Hsame. apply calls_exec_same_or_written.
Qed.

(** The file a write leaves, read back. *)
Lemma load_written encodable written_before (later : string) (l : list Todo) :
  Storage.load_todos later (fst (TodoCalls.save_todos encodable written_before l))
  = Returns (if forallb (TodoCalls.todo_encodable encodable) l then l else []).
Proof.
  unfold TodoCalls.save_todos.
  destruct (forallb _ l); cbn [fst]; [apply load_saved | reflexivity].
Qed.

(** On a collection that can be encoded the calls are those of
    [TodoManager]. *)
Lemma calls_save_agrees encodable written_before (m : TodoManager) :
  forallb (TodoCalls.todo_encodable encodable) (todos m) = true ->
  TodoCalls.save encodable written_before m = (save m, false).
Proof.
  intros H. unfold TodoCalls.save, TodoCalls.save_todos. rewrite H. reflexivity.
Qed.

Lemma calls_complete_agrees encodable written_before (now s : string) (m : TodoManager) :
  forallb (TodoCalls.todo_encodable encodable) (todos (fst (complete now s m))) = true ->
  TodoCalls.complete encodable written_before now s m
  = (fst (complete now s m), TodoCalls.Returned (snd (complete now s m))).
Proof.
  unfold TodoCalls.complete, complete.
  destruct (complete_first now s (todos m)) as [[l t] |]; [| reflexivity].
  cbn [fst snd save todos]. intros H.
  rewrite (calls_save_agrees encodable written_before (mk (storage m) l) H).
  reflexivity.
Qed.

Lemma calls_delete_agrees encodable written_before (s : string) (m : TodoManager) :
  forallb (TodoCalls.todo_encodable encodable) (todos (fst (delete s m))) = true ->
  TodoCalls.delete encodable written_before s m
  = (fst (delete s m), TodoCalls.Returned (snd (delete s m))).
Proof.
  unfold TodoCalls.delete, delete.
  destruct (pop_first s (todos m)) as [l |]; [| reflexivity].
  cbn [fst snd save todos]. intros H.
  rewrite (calls_save_agrees encodable written_before (mk (storage m) l) H).
  reflexivity.
Qed.

Lemma calls_clear_completed_agrees encodable written_before (m : TodoManager) :
  forallb (TodoCalls.todo_encodable encodable) (todos (fst (clear_completed m))) = true ->
  TodoCalls.clear_completed encodable written_before m
  = (fst (clear_completed m), TodoCalls.Returned (snd (clear_completed m))).
Proof.
  unfold TodoCalls.clear_completed, clear_completed.
  cbn [fst snd save todos]. intros H.
  rewrite (calls_save_agrees encodable written_before
             (mk (storage m) (List.filter (fun todo => negb (completed todo)) (todos m))) H).
  reflexivity.
Qed.

(** X4. Write-through, the failing write included: whatever calls are made
    on a todo manager, either nothing at all has changed, or the file is
    what the write of the collection in memory left.  If every text of that
    collection can be encoded, loading the file gives back exactly the
    collection; if not, the last write raised, the file holds a broken
    beginning, and loading it gives the empty collection while the todos
    are still in memory. *)
Theorem write_through (encodable : string -> bool)
    (written_before : list Todo -> string) (later : string)
    (ops : list TodoCalls.op) (m : TodoManager) :
  let m' := TodoCalls.run encodable written_before ops m in
  m' = m \/
  (if forallb (TodoCalls.todo_encodable encodable) (todos m')
   then storage m' = Storage.save_todos (todos m') /\
        Storage.load_todos later (storage m') = Returns (todos m')
   else storage m' = Some (NotJson (written_before (todos m'))) /\
        Storage.load_todos later (storage m') = Returns []).
Proof.
  intros m'.
  destruct (calls_run_same_or_written encodable written_before ops m) as [Hsame | Hw];
    [left; exact Hsame |].
  right. fold m' in Hw. unfold TodoCalls.written in Hw.
  pose proof (load_written encodable written_before later (todos m')) as Hload.
  rewrite <- Hw in Hload. unfold TodoCalls.save_todos in Hw.
  destruct (forallb _ (todos m')); cbn [fst] in Hw; split; assumption.
Qed.

(** X5. The pending and the completed todos split the collection: every
    todo is in exactly one of the two lists, each list keeps the order of
    the collection, and the counts add up. *)
Theorem pending_and_completed_split (m : TodoManager) :
  Permutation (list_pending m ++ list_completed m) (todos m) /\
  (forall t, In t (list_pending m) <-> In t (todos m) /\ completed t = false) /\
  (forall t, In t (list_completed m) <-> In t (todos m) /\ completed t = true) /\
  total (count m) = (pending (count m) + completed_count (count m))%Z.
Proof.
  unfold list_pending, list_completed, count. cbn [total pending completed_count].
  split; [| split; [| split]].
  - unfold list_pending, list_completed.
    induction (todos m) as [| x l IH]; cbn; [constructor |].
    destruct (completed x); cbn.
    + etransitivity; [symmetry; apply Permutation_middle |].
      constructor. exact IH.
    + constructor. exact IH.
  - intros t. rewrite filter_In, negb_true_iff. reflexivity.
  - intros t. rewrite filter_In. reflexivity.
  - pose proof (filter_lengths (fun todo => completed todo) (todos m)) as H.
    unfold list_pending, list_completed. lia.
Qed.

Lemma filter_filter_same {A} (p : A -> bool) (l : list A) :
  List.filter p (List.filter p l) = List.filter p l.
Proof.
  induction l as [| x l IH]; cbn; [reflexivity |].
  destruct (p x) eqn:Hx; cbn; rewrite ?Hx, IH; reflexivity.
Qed.



Lemma find_app_found {A} (p : A -> bool) (l k : list A) (x : A) :
  List.find p l = Some x -> List.find p (l ++ k) = Some x.
Proof.
  induction l as [| y l IH]; cbn; [discriminate |].
  destruct (p y); [intros H; exact H | exact IH].
Qed.

Lemma find_app_none {A} (p : A -> bool) (l k : list A) :
  List.find p l = None -> List.find p (l ++ k) = List.find p k.
Proof.
  induction l as [| y l IH]; cbn; [reflexivity |].
  destruct (p y); [discriminate | exact IH].
Qed.

(** X7. [add] puts the new todo last: an id that stood for a todo before
    stands for the same todo after, and an id that stood for none can only
    stand for the new one.  If every text of the new collection can be
    encoded, [add] returns the new todo and loading the file gives the new
    collection; if not, [add] raises with the todo already appended in
    memory and the file broken, so that loading it gives the empty
    collection. *)
Theorem add_keeps_lookups (encodable : string -> bool)
    (written_before : list Todo -> string)
    (uuid now later title s : string) (timer_minutes : option Z)
    (m : TodoManager) :
  let call := TodoCalls.add encodable written_before uuid now title timer_minutes m in
  let todo := Todo.create uuid now title timer_minutes in
  todos (fst call) = todos m ++ [todo] /\
  id todo = String.substring 0 8 uuid /\
  completed todo = false /\
  get s (fst call) = match get s m with
                     | Some t => Some t
                     | None => if id_matches (id todo) s then Some todo else None
                     end /\
  (if forallb (TodoCalls.todo_encodable encodable) (todos m ++ [todo])
   then snd call = TodoCalls.Returned todo /\
        Storage.load_todos later (storage (fst call)) = Returns (todos m ++ [todo])
   else snd call = TodoCalls.EncodeError /\
        Storage.load_todos later (storage (fst call)) = Returns []).
Proof.
  cbn zeta. unfold TodoCalls.add, TodoCalls.save, get. cbn [fst snd todos storage].
  split; [reflexivity |]. split; [reflexivity |]. split; [reflexivity |]. split.
  - destruct (List.find _ (todos m)) as [t |] eqn:Hf.
    + apply find_app_found, Hf.
    + rewrite (find_app_none _ _ _ Hf). cbn.
      destruct (id_matches _ s); reflexivity.
  - rewrite load_written. unfold TodoCalls.save_todos.
    destruct (forallb _ (todos m ++ _)); cbn [snd]; split; reflexivity.
Qed.
End TodoWrites.

Section Callback.
Import Todo TodoManager.

Lemma get_after_complete (now s : string) (m : TodoManager) (t : Todo) :
  get s m = Some t ->
  get s (fst (complete now s m)) = Some (mark_complete now t).
Proof.
  unfold get. intros Hget. pose proof (find_split s (todos m)) as H.
  rewrite Hget in H. destruct H as (pre & post & Hm & Hpre & Ht).
  unfold complete. rewrite Hm, (complete_first_hit now s pre post t Hpre Ht).
  cbn [fst save todos].
  assert (Hnone : List.find (fun todo => id_matches (id todo) s) pre = None).
  { clear -Hpre. induction Hpre as [| x pre Hx _ IH]; cbn; [reflexivity |].
    rewrite Hx. exact IH. }
  rewrite (find_app_none _ _ _ Hnone). cbn.
  change (id (mark_complete now t)) with (id t). rewrite Ht. reflexivity.
Qed.

(** In memory a call does what it does when the write succeeds. *)
Lemma todos_calls_complete encodable written_before (now s : string) (m : TodoManager) :
  todos (fst (TodoCalls.complete encodable written_before now s m))
  = todos (fst (complete now s m)).
Proof.
  unfold TodoCalls.complete, complete.
  destruct (complete_first now s (todos m)) as [[l t] |]; reflexivity.
Qed.

Lemma raised_calls_complete encodable written_before (now s : string) (m : TodoManager)
    (t : Todo) :
  get s m = Some t ->
  snd (TodoCalls.complete encodable written_before now s m)
  = if forallb (TodoCalls.todo_encodable encodable)
         (todos (fst (TodoCalls.complete encodable written_before now s m)))
    then TodoCalls.Returned (Some (mark_complete now t))
    else TodoCalls.EncodeError.
Proof.
  unfold get. intros Hget. pose proof (find_split s (todos m)) as H.
  rewrite Hget in H. destruct H as (pre & post & Hm & Hpre & Ht).
  unfold TodoCalls.complete.
  rewrite Hm, (complete_first_hit now s pre post t Hpre Ht).
  unfold TodoCalls.save, TodoCalls.save_todos. cbn [fst snd todos].
  destruct (forallb _ _); reflexivity.
Qed.

(** X8. The completion callback prints first and raises, leaving the todos
    alone, when the title of its timer cannot be printed.  Otherwise it
    marks the todo the timer is linked to, if that todo is pending, and
    changes nothing when there is no link, an empty link, an id that stands
    for no todo, or a todo already completed; having marked the todo it
    raises if the write or the printing of the todo's title failed.  Called
    again for the same timer it leaves the todo manager as the first call
    left it, so a completion reported twice marks the todo once. *)
Theorem on_timer_complete_once (encodable : string -> bool)
    (written_before : list Todo -> string)
    (print_timer_complete : Timer.Timer -> bool) (print_info : string -> bool)
    (now1 now2 : string) (timer : Timer.Timer) (m : TodoManager) :
  let call := Pomodoro.on_timer_complete encodable written_before
                print_timer_complete print_info in
  fst (call now2 timer (fst (call now1 timer m))) = fst (call now1 timer m) /\
  (if print_timer_complete timer then
     match Timer.todo_id timer with
     | None => call now1 timer m = (m, false)
     | Some s =>
         match get s m with
         | None => call now1 timer m = (m, false)
         | Some t =>
             if String.eqb s "" || completed t
             then call now1 timer m = (m, false)
             else
               let m' := fst (TodoCalls.complete encodable written_before now1 s m) in
               fst (call now1 timer m) = m' /\
               get s m' = Some (mark_complete now1 t) /\
               snd (call now1 timer m)
               = negb (forallb (TodoCalls.todo_encodable encodable) (todos m')) ||
                 negb (print_info ("Todo '" ++ title t ++ "' marked as complete")%string)
         end
     end
   else call now1 timer m = (m, true)).
Proof.
  cbn zeta. unfold Pomodoro.on_timer_complete.
  destruct (print_timer_complete timer) eqn:Hprint; cbn [negb].
  2: { split; reflexivity. }
  destruct (Timer.todo_id timer) as [s |]; [| split; reflexivity].
  destruct (String.eqb s "") eqn:Hs; cbn [orb].
  { split; [reflexivity |].
    destruct (get s m); reflexivity. }
  destruct (get s m) as [t |] eqn:Hget.
  2: { cbn [fst]. rewrite Hget. split; reflexivity. }
  destruct (completed t) eqn:Hc; cbn [negb].
  { cbn [fst]. rewrite Hget, Hc. split; reflexivity. }
  pose proof (raised_calls_complete encodable written_before now1 s m t Hget) as Hres.
  assert (Hget' : get s (fst (TodoCalls.complete encodable written_before now1 s m))
                  = Some (mark_complete now1 t)).
  { unfold get. rewrite todos_calls_complete. apply (get_after_complete now1 s m t Hget). }
  destruct (TodoCalls.complete encodable written_before now1 s m) as [m' res] eqn:Hcall.
  cbn [fst snd] in Hres, Hget' |- *.
  destruct (forallb _ (todos m')); subst res; cbn [fst snd negb orb];
    rewrite Hget'; cbn [negb completed mark_complete];
    (split; [reflexivity |]); (split; [reflexivity |]);
    (split; reflexivity).
Qed.
End Callback.

(** ** More on the countdown *)

Section Countdown.
Import Timer TimerManager Inv Shape.
Local Open Scope Z_scope.

Lemma tick_paused (t : Timer) : paused t = true -> fst (tick t) = t.
Proof. intros Hp. unfold tick. rewrite Hp, andb_false_r. reflexivity. Qed.

Lemma set_paused_same (t : Timer) : set_paused (paused t) t = t.
Proof. destruct t; reflexivity. Qed.

Lemma set_remaining_same (t : Timer) : set_remaining (remaining_seconds t) t = t.
Proof. destruct t; reflexivity. Qed.

Lemma exec_paused_stays st o (r : nat) (t : Timer) :
  not_resume_timer o = true -> heap st !! r = Some t -> paused t = true ->
  heap (exec st o) !! r = Some t.
Proof.
  intros Ho Hr Hp. destruct o; cbn [exec]; try discriminate;
    rewrite ?heap_start_timer, ?heap_remove_timer, ?heap_start_all,
      ?heap_stop_all, ?heap_cleanup; try exact Hr.
  - cbn. rewrite lookup_app_l; [exact Hr | eapply lookup_lt_Some, Hr].
  - unfold pause_timer. destruct (get_timer _ _) as [r0 |]; [| exact Hr].
    cbn. destruct (decide (r0 = r)) as [-> | Hne].
    + rewrite list_lookup_alter_eq, Hr. cbn. rewrite <- Hp, set_paused_same. reflexivity.
    + rewrite list_lookup_alter_ne by exact Hne. exact Hr.
  - unfold resume_task. destruct (pool st !! h) as [task |]; [| exact Hr].
    destruct (task_status task); try exact Hr.
    + rewrite heap_loop_test. exact Hr.
    + unfold after_sleep. rewrite heap_loop_test.
      assert (Hgoal : <[task_timer task := fst (tick (heap st !!! task_timer task))]>
                        (heap st) !! r = Some t).
      { destruct (decide (task_timer task = r)) as [-> | Hne].
        - rewrite (list_lookup_total_correct _ _ _ Hr), (tick_paused t Hp).
          rewrite list_lookup_insert_eq by (eapply lookup_lt_Some, Hr). reflexivity.
        - rewrite list_lookup_insert_ne by exact Hne. exact Hr. }
      destruct (on_tick _); exact Hgoal.
Qed.

(** X10. A paused timer is frozen: as long as [resume_timer] is not called,
    nothing the manager or the countdown tasks do changes the timer object,
    its remaining time included. *)
Theorem paused_timer_stays (ops : list op) (st : State) (r : nat) (t : Timer)
    (Hops : forallb not_resume_timer ops = true)
    (Hr : heap st !! r = Some t)
    (Hp : paused t = true) :
  heap (run ops st) !! r = Some t.
Proof.
  revert st Hr. induction ops as [| o ops IH]; intros st Hr; [exact Hr |].
  cbn in Hops. apply andb_true_iff in Hops. destruct Hops as [Ho Hops].
  cbn. apply (IH Hops). apply exec_paused_stays; assumption.
Qed.

Lemma paused_timer_stays_witness :
  heap (run (Sample.sixty_ticks ++ [StartAll; ResumeTask 1; PauseTimer "abcd"])
          (fst (pause_timer "abcd" Sample.focus_started))) !! 0%nat
  = Some (set_paused true (Sample.focus_timer 60)).
Proof.
  apply (paused_timer_stays
           (Sample.sixty_ticks ++ [StartAll; ResumeTask 1; PauseTimer "abcd"])
           (fst (pause_timer "abcd" Sample.focus_started)) 0
           (set_paused true (Sample.focus_timer 60))).
  - vm_compute. reflexivity.
  - vm_compute. reflexivity.
  - reflexivity.
Defined.

(** X11. Pausing ends the countdown task without completing: when the task
    of a paused timer that has time left wakes up, it returns, takes no
    second off and does not call [on_complete]. *)
Theorem paused_task_returns (st : State) (h r : nat) (t : Timer)
    (Hh : pool st !! h = Some (mk_task r Sleeping))
    (Hr : heap st !! r = Some t)
    (Hp : paused t = true)
    (Hleft : 0 < remaining_seconds t) :
  resume_task h st
  = with_pool (<[h := mk_task r Finished]> (pool st))
      (if on_tick st then call (OnTick h) st else st).
Proof.
  unfold resume_task. rewrite Hh. cbn [task_status task_timer]. unfold after_sleep.
  rewrite (list_lookup_total_correct _ _ _ Hr), (tick_paused t Hp).
  rewrite (list_insert_id _ _ _ Hr).
  assert (Hst : with_heap (heap st) st = st) by (destruct st; reflexivity).
  rewrite Hst. cbn [on_tick].
  assert (Hloop : forall st0, heap st0 = heap st ->
            loop_test h r st0 = with_pool (<[h := mk_task r Finished]> (pool st0)) st0).
  { intros st0 Hheap. unfold loop_test.
    rewrite Hheap, (list_lookup_total_correct _ _ _ Hr), Hp, andb_false_r.
    unfold is_complete. destruct (Z.leb_spec (remaining_seconds t) 0); [lia |].
    reflexivity. }
  destruct (on_tick st); rewrite Hloop; reflexivity.
Qed.

Lemma paused_task_returns_witness :
  let st := fst (pause_timer "abcd" (run [ResumeTask 0] Sample.focus_started)) in
  resume_task 0 st
  = with_pool (<[0%nat := mk_task 0 Finished]> (pool st))
      (if on_tick st then call (OnTick 0) st else st).
Proof.
  intros st.
  apply (paused_task_returns st 0 0 (set_paused true (Sample.focus_timer 60))).
  - vm_compute. reflexivity.
  - vm_compute. reflexivity.
  - reflexivity.
  - vm_compute. reflexivity.
Defined.
End Countdown.

Section Seconds.
Import Timer TimerManager Inv Shape.
Local Open Scope Z_scope.

Lemma completing_tasks_call_tick h st :
  completing_tasks (call (OnTick h) st) = completing_tasks st.
Proof. unfold completing_tasks. cbn. rewrite flat_map_app. cbn. apply app_nil_r. Qed.

(** One wake-up of the task of a timer that is running. *)
Lemma running_task_step (st : State) (h r : nat) (t : Timer) :
  pool st !! h = Some (mk_task r Sleeping) ->
  heap st !! r = Some t ->
  paused t = false ->
  0 < remaining_seconds t ->
  let st' := resume_task h st in
  heap st' = <[r := set_remaining (remaining_seconds t - 1) t]> (heap st) /\
  pool st' = (if 1 <? remaining_seconds t then pool st
              else <[h := mk_task r Finished]> (pool st)) /\
  completing_tasks st'
  = completing_tasks st ++
      (if 1 <? remaining_seconds t then []
       else if on_complete st then [h] else []) /\
  on_complete st' = on_complete st.
Proof.
  intros Hh Hr Hp Hpos. cbn zeta.
  unfold resume_task. rewrite Hh. cbn [task_status task_timer]. unfold after_sleep.
  rewrite (list_lookup_total_correct _ _ _ Hr).
  assert (Htick : fst (tick t) = set_remaining (remaining_seconds t - 1) t).
  { unfold tick. rewrite Hp. destruct (Z.ltb_spec 0 (remaining_seconds t)); [| lia].
    reflexivity. }
  rewrite Htick.
  set (t' := set_remaining (remaining_seconds t - 1) t).
  set (st1 := with_heap (<[r := t']> (heap st)) st).
  assert (Hloop : forall st2,
             heap st2 = heap st1 -> pool st2 = pool st ->
             on_complete st2 = on_complete st ->
             completing_tasks st2 = completing_tasks st ->
             heap (loop_test h r st2) = <[r := t']> (heap st) /\
             pool (loop_test h r st2)
             = (if 1 <? remaining_seconds t then pool st
                else <[h := mk_task r Finished]> (pool st)) /\
             completing_tasks (loop_test h r st2)
             = completing_tasks st ++
                 (if 1 <? remaining_seconds t then []
                  else if on_complete st then [h] else []) /\
             on_complete (loop_test h r st2) = on_complete st).
  { intros st2 Hheap Hpool Hoc Hct. unfold completing_tasks in *. unfold loop_test.
    assert (Hr2 : heap st2 !!! r = t').
    { apply list_lookup_total_correct. rewrite Hheap. unfold st1. cbn.
      apply list_lookup_insert_eq. eapply lookup_lt_Some, Hr. }
    rewrite Hr2. change (paused t') with (paused t).
    change (remaining_seconds t') with (remaining_seconds t - 1).
    rewrite Hp. cbn [negb]. rewrite andb_true_r.
    destruct (Z.ltb_spec 1 (remaining_seconds t)) as [Hlt | Hge];
      destruct (Z.ltb_spec 0 (remaining_seconds t - 1)); try lia.
    - cbn. rewrite Hpool, (list_insert_id _ _ _ Hh), Hheap, Hoc, Hct, app_nil_r.
      repeat split; reflexivity.
    - unfold is_complete. change (remaining_seconds t') with (remaining_seconds t - 1).
      destruct (Z.leb_spec (remaining_seconds t - 1) 0); [| lia].
      cbn [andb]. rewrite Hoc. destruct (on_complete st); cbn.
      + rewrite Hpool, Hheap, flat_map_app, Hct. repeat split; auto.
      + rewrite Hpool, Hheap, Hct, app_nil_r. repeat split; auto. }
  destruct (on_tick st1) eqn:Htk.
  - apply Hloop; try reflexivity. rewrite completing_tasks_call_tick. reflexivity.
  - apply Hloop; reflexivity.
Qed.

Lemma countdown_state (st : State) (h r : nat) (t : Timer) (n k : nat) :
  pool st !! h = Some (mk_task r Sleeping) ->
  heap st !! r = Some t ->
  paused t = false ->
  remaining_seconds t = Z.of_nat n ->
  (0 < n)%nat -> (k <= n)%nat ->
  let st' := run (repeat (ResumeTask h) k) st in
  heap st' !! r = Some (set_remaining (Z.of_nat (n - k)) t) /\
  pool st' !! h = Some (mk_task r (if (k <? n)%nat then Sleeping else Finished)) /\
  completing_tasks st'
  = completing_tasks st ++
      (if (k <? n)%nat then [] else if on_complete st then [h] else []) /\
  on_complete st' = on_complete st.
Proof.
  intros Hh Hr Hp Hn Hpos. induction k as [| k IH]; intros Hk; cbn zeta.
  - cbn [repeat run fold_left]. rewrite Nat.sub_0_r, <- Hn, set_remaining_same.
    destruct (Nat.ltb_spec 0 n); [| lia]. rewrite app_nil_r. repeat split; assumption.
  - destruct IH as (Hr' & Hh' & Hc' & Hoc'); [lia |].
    destruct (Nat.ltb_spec k n); [| lia].
    change (repeat (ResumeTask h) (S k)) with (ResumeTask h :: repeat (ResumeTask h) k).
    rewrite repeat_cons, run_app. cbn [run fold_left exec].
    set (stk := run (repeat (ResumeTask h) k) st) in *.
    destruct (running_task_step stk h r (set_remaining (Z.of_nat (n - k)) t) Hh' Hr')
      as (Hheap & Hpool & Hct & Hoc); [exact Hp | cbn; lia |].
    cbn [remaining_seconds set_remaining] in Hheap, Hpool, Hct.
    assert (Hlen_r : (r < length (heap stk))%nat) by (eapply lookup_lt_Some, Hr').
    assert (Hlen_h : (h < length (pool stk))%nat) by (eapply lookup_lt_Some, Hh').
    replace (Z.of_nat (n - k) - 1) with (Z.of_nat (n - S k)) in Hheap by lia.
    split; [rewrite Hheap; apply list_lookup_insert_eq; exact Hlen_r |].
    split; [| split; [| congruence]].
    + rewrite Hpool.
      destruct (Z.ltb_spec 1 (Z.of_nat (n - k))); destruct (Nat.ltb_spec (S k) n);
        try lia; [exact Hh' | apply list_lookup_insert_eq; exact Hlen_h].
    + rewrite Hct, Hc', app_nil_r, Hoc'.
      destruct (Z.ltb_spec 1 (Z.of_nat (n - k))); destruct (Nat.ltb_spec (S k) n);
        try lia; reflexivity.
Qed.

(** X12. A countdown takes its seconds one by one: the task of a running
    timer with [n] seconds left has taken off exactly [k] seconds after [k]
    wake-ups, for every [k] up to [n]; it goes on sleeping while time is
    left, and at the [n]-th wake-up it returns and calls [on_complete],
    once, if a callback is registered. *)
Theorem countdown_takes_every_second (st : State) (h r : nat) (t : Timer) (n k : nat)
    (Hh : pool st !! h = Some (mk_task r Sleeping))
    (Hr : heap st !! r = Some t)
    (Hp : paused t = false)
    (Hn : remaining_seconds t = Z.of_nat n)
    (Hpos : (0 < n)%nat)
    (Hk : (k <= n)%nat) :
  let st' := run (repeat (ResumeTask h) k) st in
  heap st' !! r = Some (set_remaining (Z.of_nat (n - k)) t) /\
  pool st' !! h = Some (mk_task r (if (k <? n)%nat then Sleeping else Finished)) /\
  completing_tasks st'
  = completing_tasks st ++
      (if (k <? n)%nat then [] else if on_complete st then [h] else []).
Proof.
  destruct (countdown_state st h r t n k Hh Hr Hp Hn Hpos Hk) as (H1 & H2 & H3 & _).
  repeat split; assumption.
Qed.

Lemma countdown_takes_every_second_witness :
  let st := run [ResumeTask 0] Sample.focus_started in
  let st' := run (repeat (ResumeTask 0) 60) st in
  heap st' !! 0%nat = Some (set_remaining (Z.of_nat (60 - 60)) (Sample.focus_timer 60)) /\
  pool st' !! 0%nat = Some (mk_task 0 (if (60 <? 60)%nat then Sleeping else Finished)) /\
  completing_tasks st'
  = completing_tasks st ++
      (if (60 <? 60)%nat then [] else if on_complete st then [0%nat] else []).
Proof.
  intros st.
  apply (countdown_takes_every_second st 0 0 (Sample.focus_timer 60) 60 60).
  - vm_compute. reflexivity.
  - vm_compute. reflexivity.
  - reflexivity.
  - reflexivity.
  - lia.
  - lia.
Defined.
End Seconds.

(** ** Tasks that are done *)

Section DoneTasks.
Import Timer TimerManager Inv Shape.

Lemma keeps_done_refl p : keeps_done p p.
Proof. intros h task H _. exact H. Qed.

Lemma keeps_done_trans p1 p2 p3 : keeps_done p1 p2 -> keeps_done p2 p3 -> keeps_done p1 p3.
Proof. intros H12 H23 h task H Hd. apply H23; [apply H12 |]; assumption. Qed.

Lemma keeps_done_cancel h st : keeps_done (pool st) (pool (cancel h st)).
Proof.
  intros h0 task H Hd. cbn. destruct (decide (h = h0)) as [<- | Hne].
  - rewrite list_lookup_alter_eq, H. cbn. rewrite Hd. reflexivity.
  - rewrite list_lookup_alter_ne by exact Hne. exact H.
Qed.

Lemma keeps_done_start_timer s st : keeps_done (pool st) (pool (fst (start_timer s st))).
Proof.
  unfold start_timer. destruct (get_timer s st); [| apply keeps_done_refl].
  destruct (task_running s st); [apply keeps_done_refl |].
  intros h task H _. cbn. rewrite lookup_app_l; [exact H | eapply lookup_lt_Some, H].
Qed.

Lemma keeps_done_fold {B} (f : State -> B -> State) (l : list B) st :
  (forall a b, keeps_done (pool a) (pool (f a b))) ->
  keeps_done (pool st) (pool (fold_left f l st)).
Proof.
  intros Hf.
  apply (fold_left_preserves (fun st' => keeps_done (pool st) (pool st')));
    [| apply keeps_done_refl].
  intros a b Ha. eapply keeps_done_trans; [exact Ha | apply Hf].
Qed.

Lemma pool_loop_test_other h0 r st h :
  h <> h0 -> pool (loop_test h0 r st) !! h = pool st !! h.
Proof.
  intros Hne. unfold loop_test. destruct (_ && negb _); cbn.
  - apply list_lookup_insert_ne. congruence.
  - destruct (_ && on_complete st); cbn; apply list_lookup_insert_ne; congruence.
Qed.

Lemma pool_resume_task_other h0 st h :
  h <> h0 -> pool (resume_task h0 st) !! h = pool st !! h.
Proof.
  intros Hne. unfold resume_task. destruct (pool st !! h0) as [task |]; [| reflexivity].
  destruct (task_status task); try reflexivity.
  - apply pool_loop_test_other, Hne.
  - unfold after_sleep. rewrite pool_loop_test_other by exact Hne.
    destruct (on_tick _); reflexivity.
Qed.

Lemma resume_task_done h st task :
  pool st !! h = Some task -> done task = true -> resume_task h st = st.
Proof.
  intros H Hd. unfold resume_task. rewrite H.
  unfold done in Hd. destruct (task_status task); try discriminate; reflexivity.
Qed.

Lemma exec_keeps_done st o : keeps_done (pool st) (pool (exec st o)).
Proof.
  destruct o; cbn [exec]; try apply keeps_done_refl; try apply keeps_done_start_timer.
  - unfold remove_timer. destruct (List.find _ _); [| apply keeps_done_refl].
    destruct (PyDict.get _ _) as [h |]; [| apply keeps_done_refl].
    apply (keeps_done_cancel h st).
  - unfold pause_timer. destruct (get_timer _ _); apply keeps_done_refl.
  - unfold resume_timer. destruct (get_timer _ _); [| apply keeps_done_refl].
    destruct (paused _); [| apply keeps_done_refl].
    cbn [fst]. apply (keeps_done_start_timer _ (with_heap _ st)).
  - unfold start_all. apply (keeps_done_fold _ _ (with_running true st)).
    intros a b. destruct (negb _); [apply keeps_done_start_timer | apply keeps_done_refl].
  - unfold stop_all. cbn [pool with_tasks].
    apply (keeps_done_fold _ _ (with_running false st)).
    intros a b. apply keeps_done_cancel.
  - unfold cleanup_completed. cbn [fst]. apply keeps_done_fold.
    intros a b. destruct (PyDict.mem _ _); apply keeps_done_refl.
  - intros h0 task H Hd. destruct (decide (h0 = h)) as [-> | Hne].
    + rewrite (resume_task_done h st task H Hd). exact H.
    + rewrite pool_resume_task_other by exact Hne. exact H.
Qed.

Lemma completing_tasks_loop_test h r st :
  completing_tasks (loop_test h r st) = completing_tasks st \/
  completing_tasks (loop_test h r st) = completing_tasks st ++ [h].
Proof.
  unfold loop_test. destruct (_ && negb _); [left; reflexivity |].
  destruct (_ && on_complete st); [right | left; reflexivity].
  unfold completing_tasks. cbn. rewrite flat_map_app. reflexivity.
Qed.

Lemma completing_tasks_resume_task h st :
  completing_tasks (resume_task h st) = completing_tasks st \/
  completing_tasks (resume_task h st) = completing_tasks st ++ [h].
Proof.
  unfold resume_task. destruct (pool st !! h) as [task |]; [| left; reflexivity].
  destruct (task_status task); try (left; reflexivity).
  - apply completing_tasks_loop_test.
  - unfold after_sleep.
    match goal with |- context [loop_test h ?r ?s] =>
      destruct (completing_tasks_loop_test h r s) as [H | H]; rewrite H end;
      destruct (on_tick _); rewrite ?completing_tasks_call_tick; auto.
Qed.

Lemma exec_done_task st o h task :
  pool st !! h = Some task -> done task = true ->
  List.filter (Nat.eqb h) (completing_tasks (exec st o))
  = List.filter (Nat.eqb h) (completing_tasks st).
Proof.
  intros H Hd.
  assert (Hquiet : (forall h0, o <> ResumeTask h0) ->
                   completing_tasks (exec st o) = completing_tasks st).
  { intros Ho. destruct (quiet_exec st o Ho) as [Hc _].
    unfold completing_tasks. rewrite Hc. reflexivity. }
  destruct o; try (rewrite Hquiet by discriminate; reflexivity).
  cbn [exec]. destruct (decide (h0 = h)) as [-> | Hne].
  - rewrite (resume_task_done h st task H Hd). reflexivity.
  - destruct (completing_tasks_resume_task h0 st) as [-> | ->]; [reflexivity |].
    rewrite List.filter_app. cbn.
    destruct (Nat.eqb_spec h h0) as [-> | _]; [congruence | apply app_nil_r].
Qed.

(** X13. A task that is done, returned or cancelled, is done for good:
    whatever happens later it keeps its state, it is never resumed to any
    effect, and it makes no further call of [on_complete]. *)
Theorem done_task_is_final (ops : list op) (st : State) (h : nat) (task : Task)
    (Hh : pool st !! h = Some task)
    (Hd : done task = true) :
  pool (run ops st) !! h = Some task /\
  List.filter (Nat.eqb h) (completing_tasks (run ops st))
  = List.filter (Nat.eqb h) (completing_tasks st).
Proof.
  revert st Hh. induction ops as [| o ops IH]; intros st Hh; [split; [exact Hh | reflexivity] |].
  cbn [run fold_left]. fold (run ops (exec st o)).
  pose proof (exec_keeps_done st o h task Hh Hd) as Hh'.
  destruct (IH (exec st o) Hh') as [Hp Hc]. split; [exact Hp |].
  rewrite Hc. apply (exec_done_task st o h task Hh Hd).
Qed.

Lemma done_task_is_final_witness :
  let st := fst (remove_timer "abcd" (run [ResumeTask 0] Sample.focus_started)) in
  let ops := [AddTimer Sample.focus_uuid Sample.focus_start "Focus" 0 None;
              StartAll; ResumeTask 0; ResumeTask 1] in
  pool (run ops st) !! 0%nat = Some (mk_task 0 Cancelled) /\
  List.filter (Nat.eqb 0) (completing_tasks (run ops st))
  = List.filter (Nat.eqb 0) (completing_tasks st).
Proof.
  intros st ops. apply (done_task_is_final ops st 0 (mk_task 0 Cancelled)).
  - vm_compute. reflexivity.
  - reflexivity.
Defined.
End DoneTasks.

(** ** Removing and stopping *)

Section Removing.
Import Timer TimerManager Inv Shape.

Lemma del_absent {V} (k : string) (d : PyDict.dict V) :
  PyDict.get k d = None -> PyDict.del k d = d.
Proof.
  induction d as [| [k' v'] d IH]; cbn; [reflexivity |].
  destruct (String.eqb k' k); [discriminate |]. intros H. rewrite (IH H). reflexivity.
Qed.

Lemma del_first {V} (k : string) (v : V) (pre post : PyDict.dict V) :
  Forall (fun kv => fst kv <> k) pre ->
  PyDict.del k (pre ++ (k, v) :: post) = pre ++ post.
Proof.
  induction 1 as [| [k' v'] pre Hne _ IH]; cbn.
  - rewrite String.eqb_refl. reflexivity.
  - destruct (String.eqb_spec k' k) as [-> | _]; [destruct Hne; reflexivity |].
    rewrite IH. reflexivity.
Qed.

(** The first entry of [self.timers] that an id stands for. *)
Lemma timers_find_split (s : string) (d : PyDict.dict nat) :
  match List.find (fun kv => id_matches (fst kv) s) d with
  | Some (k, r) =>
      exists pre post,
        d = pre ++ (k, r) :: post /\
        Forall (fun kv => id_matches (fst kv) s = false) pre /\
        id_matches k s = true /\
        List.find (fun tid => id_matches tid s) (PyDict.keys d) = Some k
  | None =>
      Forall (fun kv => id_matches (fst kv) s = false) d /\
      List.find (fun tid => id_matches tid s) (PyDict.keys d) = None
  end.
Proof.
  induction d as [| [k0 r0] d IH]; cbn; [split; [constructor | reflexivity] |].
  destruct (id_matches k0 s) eqn:Hm.
  - exists [], d. repeat split; [constructor | exact Hm].
  - destruct (List.find _ d) as [[k r] |].
    + destruct IH as (pre & post & -> & Hpre & Hk & Hfind).
      exists ((k0, r0) :: pre), post. repeat split; try assumption.
      constructor; assumption.
    + destruct IH as [Hall Hfind]. split; [constructor; assumption | exact Hfind].
Qed.

Lemma resume_task_idle (h : nat) (st : State) :
  (forall task, pool st !! h = Some task -> done task = true) ->
  resume_task h st = st.
Proof.
  intros Hidle. destruct (pool st !! h) as [task |] eqn:Hh.
  - apply (resume_task_done h st task Hh), Hidle. reflexivity.
  - unfold resume_task. rewrite Hh. reflexivity.
Qed.

Lemma cancel_idle (h h0 : nat) (st : State) :
  h0 = h \/ (forall task, pool st !! h = Some task -> done task = true) ->
  forall task, pool (cancel h0 st) !! h = Some task -> done task = true.
Proof.
  intros Hcase task. cbn. destruct (decide (h0 = h)) as [-> | Hne].
  - rewrite list_lookup_alter_eq. destruct (pool st !! h) as [t0 |]; [| discriminate].
    cbn. intros [= <-]. destruct (done t0) eqn:Hd; [exact Hd | reflexivity].
  - rewrite list_lookup_alter_ne by exact Hne.
    destruct Hcase as [-> | Hidle]; [contradiction | apply Hidle].
Qed.

(** X14. [remove_timer] takes the first timer the id stands for out of
    [self.timers] and leaves the others in their order; the task registered
    for it is cancelled and forgotten, and resuming it has no effect any
    more; the timer objects are not touched and no callback is called.
    Without a match it returns false and changes nothing. *)
Theorem remove_timer_first_match (s : string) (st : State) :
  match get_timer s st with
  | None => remove_timer s st = (st, false)
  | Some r =>
      exists k pre post,
        timers st = pre ++ (k, r) :: post /\
        Forall (fun kv => id_matches (fst kv) s = false) pre /\
        id_matches k s = true /\
        let st' := fst (remove_timer s st) in
        snd (remove_timer s st) = true /\
        timers st' = pre ++ post /\
        tasks st' = PyDict.del k (tasks st) /\
        heap st' = heap st /\
        calls st' = calls st /\
        match PyDict.get k (tasks st) with
        | Some h => resume_task h st' = st'
        | None => pool st' = pool st
        end
  end.
Proof.
  unfold get_timer, remove_timer. pose proof (timers_find_split s (timers st)) as H.
  destruct (List.find _ (timers st)) as [[k r] |].
  2: { destruct H as [_ ->]. reflexivity. }
  destruct H as (pre & post & Hsplit & Hpre & Hk & ->).
  exists k, pre, post. split; [exact Hsplit |]. split; [exact Hpre |].
  split; [exact Hk |]. cbn zeta.
  assert (Hdel : PyDict.del k (timers st) = pre ++ post).
  { rewrite Hsplit. apply del_first.
    eapply Forall_impl; [exact Hpre |]. intros [k' r'] Hno Heq. cbn in Hno, Heq. congruence. }
  destruct (PyDict.get k (tasks st)) as [h |] eqn:Hget; cbn.
  - repeat split; try assumption.
    apply resume_task_idle. intros task. cbn.
    apply (cancel_idle h h st). left. reflexivity.
  - rewrite (del_absent k (tasks st) Hget). repeat split; assumption.
Qed.

Lemma fold_cancel_idle (hs : list nat) (h : nat) (st : State) :
  In h hs \/ (forall task, pool st !! h = Some task -> done task = true) ->
  forall task,
    pool (fold_left (fun st h => cancel h st) hs st) !! h = Some task ->
    done task = true.
Proof.
  revert st. induction hs as [| h0 hs IH]; intros st Hcase; cbn [fold_left].
  - destruct Hcase as [[] | Hidle]. exact Hidle.
  - apply IH. destruct Hcase as [[-> | Hin] | Hidle].
    + right. apply cancel_idle. left. reflexivity.
    + left. exact Hin.
    + right. apply cancel_idle. right. exact Hidle.
Qed.

Lemma stop_all_frame (st : State) :
  heap (stop_all st) = heap st /\ timers (stop_all st) = timers st /\
  calls (stop_all st) = calls st.
Proof.
  split; [apply heap_stop_all |]. split; [apply timers_stop_all |].
  unfold stop_all. cbn [calls with_tasks].
  apply (fold_left_preserves (fun st' => calls st' = calls st)); [| reflexivity].
  intros a b Ha. exact Ha.
Qed.

(** X15. [stop_all] cancels every task that is registered and forgets them
    all: resuming any of them has no effect afterwards.  The timers stay in
    the manager with the time they had, and no callback is called. *)
Theorem stop_all_stops (st : State) :
  let st' := stop_all st in
  tasks st' = [] /\
  running st' = false /\
  timers st' = timers st /\
  heap st' = heap st /\
  calls st' = calls st /\
  Forall (fun kh => resume_task (snd kh) st' = st') (tasks st).
Proof.
  cbn zeta. destruct (stop_all_frame st) as (Hheap & Htimers & Hcalls).
  split; [reflexivity |]. split.
  { unfold stop_all. cbn [running with_tasks].
    apply (fold_left_preserves (fun st' => running st' = false)); [| reflexivity].
    intros a b Ha. exact Ha. }
  repeat split; try assumption.
  apply Forall_forall. intros [k h] Hin. cbn [snd].
  apply resume_task_idle. intros task. unfold stop_all. cbn [pool with_tasks].
  apply (fold_cancel_idle (PyDict.values (tasks st)) h (with_running false st)).
  left. apply list_elem_of_In in Hin.
  change h with (snd (k, h)). apply in_map, Hin.
Qed.
End Removing.

(** ** The shape of reachable states *)

Section DictKeys.
Context {V : Type}.
Implicit Types (d : PyDict.dict V) (k : string) (v : V).

Lemma mem_keys k d : PyDict.mem k d = true <-> In k (PyDict.keys d).
Proof.
  unfold PyDict.mem, PyDict.keys. rewrite existsb_exists, in_map_iff. split.
  - intros (kv & Hin & Heq). apply String.eqb_eq in Heq. exists kv. split; assumption.
  - intros (kv & Heq & Hin). exists kv. split; [exact Hin | apply String.eqb_eq, Heq].
Qed.

Lemma get_none_keys k d : PyDict.get k d = None <-> ~ In k (PyDict.keys d).
Proof.
  induction d as [| [k' v'] d IH]; cbn; [tauto |].
  destruct (String.eqb_spec k' k) as [-> | Hne].
  - split; [discriminate | intros H; destruct H; left; reflexivity].
  - rewrite IH. tauto.
Qed.

Lemma keys_set k v d :
  PyDict.keys (PyDict.set k v d)
  = if PyDict.mem k d then PyDict.keys d else PyDict.keys d ++ [k].
Proof.
  unfold PyDict.keys, PyDict.mem.
  induction d as [| [k' v'] d IH]; cbn; [reflexivity |].
  destruct (String.eqb k' k) eqn:E; cbn; [reflexivity |].
  rewrite IH. destruct (existsb _ d); reflexivity.
Qed.

Lemma keys_set_incl k v d k0 :
  In k0 (PyDict.keys d) -> In k0 (PyDict.keys (PyDict.set k v d)).
Proof.
  rewrite keys_set. destruct (PyDict.mem k d); [tauto |].
  intros H. apply in_or_app. left. exact H.
Qed.

Lemma keys_set_new k v d : In k (PyDict.keys (PyDict.set k v d)).
Proof.
  rewrite keys_set. destruct (PyDict.mem k d) eqn:E.
  - apply mem_keys, E.
  - apply in_or_app. right. left. reflexivity.
Qed.

Lemma NoDup_keys_set k v d :
  NoDup (PyDict.keys d) -> NoDup (PyDict.keys (PyDict.set k v d)).
Proof.
  intros Hnd. rewrite keys_set. destruct (PyDict.mem k d) eqn:E; [exact Hnd |].
  apply NoDup_app. split; [exact Hnd |]. split; [| apply NoDup_singleton].
  intros x Hx Hx'. apply list_elem_of_In in Hx, Hx'. destruct Hx' as [<- | []].
  apply mem_keys in Hx. congruence.
Qed.

Lemma keys_del_incl k d k0 :
  In k0 (PyDict.keys (PyDict.del k d)) -> In k0 (PyDict.keys d).
Proof.
  induction d as [| [k' v'] d IH]; cbn; [tauto |].
  destruct (String.eqb k' k); cbn; [tauto |].
  intros [H | H]; [left; exact H | right; apply IH, H].
Qed.

Lemma keys_del_other k d k0 :
  In k0 (PyDict.keys d) -> k0 <> k -> In k0 (PyDict.keys (PyDict.del k d)).
Proof.
  induction d as [| [k' v'] d IH]; cbn; [tauto |].
  intros [-> | Hin] Hne.
  - destruct (String.eqb_spec k0 k); [contradiction | left; reflexivity].
  - destruct (String.eqb k' k); [exact Hin | right; apply IH; assumption].
Qed.

Lemma NoDup_keys_del k d :
  NoDup (PyDict.keys d) -> NoDup (PyDict.keys (PyDict.del k d)).
Proof.
  induction d as [| [k' v'] d IH]; cbn; [tauto |].
  intros Hnd. apply NoDup_cons in Hnd. destruct Hnd as [Hnotin Hnd].
  destruct (String.eqb k' k); [exact Hnd |].
  cbn. apply NoDup_cons. split; [| apply IH, Hnd].
  intros Hin. apply Hnotin. apply list_elem_of_In. apply list_elem_of_In in Hin.
  eapply keys_del_incl, Hin.
Qed.

Lemma keys_del_gone k d :
  NoDup (PyDict.keys d) -> ~ In k (PyDict.keys (PyDict.del k d)).
Proof.
  induction d as [| [k' v'] d IH]; cbn; [tauto |].
  intros Hnd. apply NoDup_cons in Hnd. destruct Hnd as [Hnotin Hnd].
  destruct (String.eqb_spec k' k) as [-> | Hne].
  - intros Hin. apply Hnotin, list_elem_of_In, Hin.
  - cbn. intros [Heq | Hin]; [contradiction | exact (IH Hnd Hin)].
Qed.

Lemma in_keys k v d : In (k, v) d -> In k (PyDict.keys d).
Proof. intros H. change k with (fst (k, v)). apply in_map, H. Qed.
End DictKeys.

Section WellFormed.
Import Timer TimerManager Inv Shape.

Lemma pool_shape_refl p : pool_shape p p.
Proof. split; [reflexivity |]. intros h task H. exists task. split; [exact H | reflexivity]. Qed.

Lemma pool_shape_trans p1 p2 p3 : pool_shape p1 p2 -> pool_shape p2 p3 -> pool_shape p1 p3.
Proof.
  intros [Hl12 H12] [Hl23 H23]. split; [congruence |].
  intros h task3 H3. destruct (H23 h task3 H3) as (task2 & H2 & Ht2).
  destruct (H12 h task2 H2) as (task1 & H1 & Ht1).
  exists task1. split; [exact H1 | congruence].
Qed.

Lemma pool_shape_cancel h st : pool_shape (pool st) (pool (cancel h st)).
Proof.
  split; [apply length_alter |]. intros h0 task'. cbn.
  destruct (decide (h = h0)) as [<- | Hne].
  - rewrite list_lookup_alter_eq. destruct (pool st !! h) as [task |]; [| discriminate].
    cbn. intros [= <-]. exists task. split; [reflexivity |].
    destruct (done task); reflexivity.
  - rewrite list_lookup_alter_ne by exact Hne. intros H. exists task'.
    split; [exact H | reflexivity].
Qed.

Lemma pool_shape_insert (p : list Task) h task status :
  p !! h = Some task ->
  pool_shape p (<[h := mk_task (task_timer task) status]> p).
Proof.
  intros Hh. split; [apply length_insert |]. intros h0 task'.
  destruct (decide (h = h0)) as [<- | Hne].
  - rewrite list_lookup_insert_eq by (eapply lookup_lt_Some, Hh).
    intros [= <-]. exists task. split; [exact Hh | reflexivity].
  - rewrite list_lookup_insert_ne by exact Hne. intros H. exists task'.
    split; [exact H | reflexivity].
Qed.

Lemma pool_shape_loop_test h st task :
  pool st !! h = Some task ->
  pool_shape (pool st) (pool (loop_test h (task_timer task) st)).
Proof.
  intros Hh. unfold loop_test. destruct (_ && negb _); cbn.
  - apply pool_shape_insert, Hh.
  - destruct (_ && on_complete st); cbn; apply pool_shape_insert, Hh.
Qed.

Lemma pool_shape_resume_task h st : pool_shape (pool st) (pool (resume_task h st)).
Proof.
  unfold resume_task. destruct (pool st !! h) as [task |] eqn:Hh; [| apply pool_shape_refl].
  destruct (task_status task); try apply pool_shape_refl.
  - apply pool_shape_loop_test, Hh.
  - unfold after_sleep.
    destruct (on_tick _).
    + exact (pool_shape_loop_test h (call (OnTick h) (with_heap _ st)) task Hh).
    + exact (pool_shape_loop_test h (with_heap _ st) task Hh).
Qed.

Lemma tasks_loop_test h r st : tasks (loop_test h r st) = tasks st.
Proof.
  unfold loop_test. destruct (_ && negb _); [reflexivity |].
  destruct (_ && on_complete st); reflexivity.
Qed.

Lemma tasks_resume_task h st : tasks (resume_task h st) = tasks st.
Proof.
  unfold resume_task. destruct (pool st !! h) as [task |]; [| reflexivity].
  destruct (task_status task); try reflexivity.
  - apply tasks_loop_test.
  - unfold after_sleep. rewrite tasks_loop_test. destruct (on_tick _); reflexivity.
Qed.

Lemma length_heap_resume_task h st : length (heap (resume_task h st)) = length (heap st).
Proof.
  unfold resume_task. destruct (pool st !! h) as [task |]; [| reflexivity].
  destruct (task_status task); try reflexivity.
  - rewrite heap_loop_test. reflexivity.
  - unfold after_sleep. rewrite heap_loop_test.
    destruct (on_tick _); cbn; apply length_insert.
Qed.

(** The dictionaries are the same, no timer object is lost and the tasks
    keep their timers. *)
Lemma well_formed_shape st st' :
  timers st' = timers st -> tasks st' = tasks st ->
  length (heap st) <= length (heap st') ->
  pool_shape (pool st) (pool st') ->
  well_formed st -> well_formed st'.
Proof.
  intros Ht Hk Hlen [Hpl Hps] (Hnt & Hnk & Hrefs & Htasks & Hpool).
  unfold well_formed. rewrite Ht, Hk, Hpl.
  split; [exact Hnt |]. split; [exact Hnk |]. split; [| split].
  - intros k r Hin. specialize (Hrefs k r Hin). lia.
  - exact Htasks.
  - intros h task' H'. destruct (Hps h task' H') as (task & H & Heq).
    specialize (Hpool h task H). lia.
Qed.

Lemma well_formed_add uuid now title minutes todo_id st :
  well_formed st -> well_formed (fst (add_timer uuid now title minutes todo_id st)).
Proof.
  intros (Hnt & Hnk & Hrefs & Htasks & Hpool). unfold well_formed. cbn.
  rewrite length_app. cbn [length].
  split; [apply NoDup_keys_set, Hnt |]. split; [exact Hnk |]. split; [| split].
  - intros k r Hin. apply in_set in Hin. destruct Hin as [Hin | [_ ->]]; [| lia].
    specialize (Hrefs k r Hin). lia.
  - intros k h Hin. destruct (Htasks k h Hin) as [Hh Hk].
    split; [exact Hh | apply keys_set_incl, Hk].
  - intros h task H. specialize (Hpool h task H). lia.
Qed.

(** [del self.tasks[k]] if it is there, and [del self.timers[k]]. *)
Lemma well_formed_forget k st :
  well_formed st ->
  well_formed (with_timers (PyDict.del k (timers st))
                 (with_tasks (PyDict.del k (tasks st)) st)).
Proof.
  intros (Hnt & Hnk & Hrefs & Htasks & Hpool). unfold well_formed. cbn.
  split; [apply NoDup_keys_del, Hnt |]. split; [apply NoDup_keys_del, Hnk |].
  split; [| split].
  - intros k0 r Hin. apply (Hrefs k0 r). eapply in_del, Hin.
  - intros k0 h Hin.
    assert (Hne : k0 <> k).
    { intros ->. apply (keys_del_gone k (tasks st) Hnk). eapply in_keys, Hin. }
    destruct (Htasks k0 h (in_del _ _ _ _ Hin)) as [Hh Hk].
    split; [exact Hh | apply keys_del_other; assumption].
  - exact Hpool.
Qed.

Lemma with_tasks_same st : with_tasks (tasks st) st = st.
Proof. destruct st; reflexivity. Qed.

Lemma well_formed_remove s st :
  well_formed st -> well_formed (fst (remove_timer s st)).
Proof.
  intros Hwf. unfold remove_timer. destruct (List.find _ _) as [k |]; [| exact Hwf].
  destruct (PyDict.get k (tasks st)) as [h |] eqn:Hget; cbn [fst].
  - refine (well_formed_forget k (cancel h st) _).
    apply (well_formed_shape st (cancel h st));
      [reflexivity | reflexivity | | apply pool_shape_cancel | exact Hwf].
    cbn. lia.
  - pose proof (well_formed_forget k st Hwf) as H.
    rewrite (del_absent k (tasks st) Hget), with_tasks_same in H. exact H.
Qed.

Lemma well_formed_cleanup st :
  well_formed st -> well_formed (fst (cleanup_completed st)).
Proof.
  unfold cleanup_completed. cbn [fst]. apply fold_left_preserves.
  intros a k Ha. destruct (PyDict.mem k (tasks a)) eqn:Hmem.
  - exact (well_formed_forget k a Ha).
  - pose proof (well_formed_forget k a Ha) as H.
    assert (Hget : PyDict.get k (tasks a) = None).
    { apply get_none_keys. intros Hin. apply mem_keys in Hin. congruence. }
    rewrite (del_absent k (tasks a) Hget), with_tasks_same in H. exact H.
Qed.

Lemma get_timer_in s st r :
  get_timer s st = Some r -> exists k, In (k, r) (timers st).
Proof.
  unfold get_timer. destruct (List.find _ _) as [[k r0] |] eqn:Hf; [| discriminate].
  intros [= <-]. exists k. apply find_some in Hf. apply Hf.
Qed.

Lemma well_formed_start_timer s st :
  keyed st -> well_formed st -> well_formed (fst (start_timer s st)).
Proof.
  intros Hkeyed Hwf. unfold start_timer.
  destruct (get_timer s st) as [r |] eqn:Hget; [| exact Hwf].
  destruct (task_running s st); [exact Hwf |].
  destruct (get_timer_in s st r Hget) as (k & Hin).
  destruct (Hkeyed k r Hin) as (t & Hr & Hid).
  destruct Hwf as (Hnt & Hnk & Hrefs & Htasks & Hpool).
  rewrite (list_lookup_total_correct _ _ _ Hr), Hid.
  unfold well_formed. cbn. rewrite length_app. cbn [length].
  split; [exact Hnt |]. split; [apply NoDup_keys_set, Hnk |]. split; [exact Hrefs |].
  split.
  - intros k0 h Hin0. apply in_set in Hin0. destruct Hin0 as [Hin0 | [-> ->]].
    + destruct (Htasks k0 h Hin0) as [Hh Hk]. split; [lia | exact Hk].
    + split; [lia | eapply in_keys, Hin].
  - intros h task H. apply lookup_app_Some in H.
    destruct H as [H | [_ H]]; [apply (Hpool h task H) |].
    destruct (h - length (pool st))%nat; [| discriminate].
    injection H as <-. cbn. apply (Hrefs k r Hin).
Qed.

Lemma keyed_frame st st' :
  timers st' = timers st -> heap st' = heap st -> keyed st -> keyed st'.
Proof. intros Ht Hh Hk. unfold keyed. rewrite Ht, Hh. exact Hk. Qed.

Lemma keyed_flag p r st :
  keyed st -> keyed (with_heap (alter (set_paused p) r (heap st)) st).
Proof.
  intros Hk k r0 Hin. destruct (Hk k r0 Hin) as (t & Hr & Hid). cbn.
  destruct (decide (r = r0)) as [<- | Hne].
  - exists (set_paused p t). rewrite list_lookup_alter_eq, Hr. split; [reflexivity | exact Hid].
  - exists t. rewrite list_lookup_alter_ne by exact Hne. split; assumption.
Qed.

Lemma well_formed_exec st o :
  keyed st -> well_formed st -> well_formed (exec st o).
Proof.
  intros Hkeyed Hwf. destruct o; cbn [exec]; try exact Hwf.
  - apply well_formed_add, Hwf.
  - apply well_formed_remove, Hwf.
  - apply well_formed_start_timer; assumption.
  - unfold pause_timer. destruct (get_timer _ _); [| exact Hwf].
    apply (well_formed_shape st);
      [reflexivity | reflexivity | | apply pool_shape_refl | exact Hwf].
    cbn. rewrite length_alter. lia.
  - unfold resume_timer. destruct (get_timer _ _) as [r |]; [| exact Hwf].
    destruct (paused _); [| exact Hwf]. cbn [fst].
    apply well_formed_start_timer; [apply keyed_flag, Hkeyed |].
    apply (well_formed_shape st);
      [reflexivity | reflexivity | | apply pool_shape_refl | exact Hwf].
    cbn. rewrite length_alter. lia.
  - unfold start_all.
    apply (fold_left_preserves (fun st' => keyed st' /\ well_formed st')).
    + intros a b [Hka Hwa]. destruct (negb _); [| split; assumption].
      split; [| apply well_formed_start_timer; assumption].
      eapply keyed_frame; [apply timers_start_timer | apply heap_start_timer | exact Hka].
    + split; [exact Hkeyed |].
      apply (well_formed_shape st);
      [reflexivity | reflexivity | | apply pool_shape_refl | exact Hwf].
      cbn. lia.
  - destruct Hwf as (Hnt & Hnk & Hrefs & Htasks & Hpool).
    destruct (stop_all_frame st) as (Hheap & Htimers & _).
    unfold well_formed. rewrite Hheap, Htimers.
    split; [exact Hnt |]. split; [constructor |]. split; [exact Hrefs |].
    split; [intros k h [] |].
    assert (Hshape : pool_shape (pool st) (pool (stop_all st))).
    { unfold stop_all. cbn [pool with_tasks].
      apply (fold_left_preserves (fun st' => pool_shape (pool st) (pool st')));
        [| apply pool_shape_refl].
      intros a b Ha. eapply pool_shape_trans; [exact Ha | apply pool_shape_cancel]. }
    intros h task' H'. destruct Hshape as [_ Hps].
    destruct (Hps h task' H') as (task & H & ->). apply (Hpool h task H).
  - apply well_formed_cleanup, Hwf.
  - apply (well_formed_shape st);
      [apply timers_resume_task | apply tasks_resume_task | |
       apply pool_shape_resume_task | exact Hwf].
    rewrite length_heap_resume_task. lia.
Qed.

Lemma well_formed_run ops st :
  keyed st -> well_formed st -> well_formed (run ops st).
Proof.
  revert st. induction ops as [| o ops IH]; intros st Hk Hwf; [exact Hwf |].
  cbn. apply IH; [apply keyed_exec, Hk | apply well_formed_exec; assumption].
Qed.

Lemma well_formed_init : well_formed init.
Proof.
  unfold well_formed. cbn.
  split; [constructor |]. split; [constructor |].
  split; [intros k r [] |]. split; [intros k h [] |].
  intros h task H. rewrite lookup_nil in H. discriminate.
Qed.

(** X16. Every state a manager can reach is well formed: an id is the key
    of one timer and of at most one registered task, every key of
    [self.timers] leads to a timer object that carries this id, every
    registered task belongs to a timer that is still in the manager, and no
    reference or handle points outside the stores. *)
Theorem reachable_well_formed (ops : list op) :
  well_formed (run ops init) /\ keyed (run ops init).
Proof.
  split; [apply well_formed_run; [apply keyed_init | apply well_formed_init] |].
  apply keyed_run, keyed_init.
Qed.
End WellFormed.

(** ** Sweeping and starting *)

Section Sweeping.
Import Timer TimerManager Inv Shape.

Lemma fold_del_cons {V} (ids : list string) (k : string) (v : V) (d : PyDict.dict V) :
  ~ In k ids ->
  fold_left (fun d k => PyDict.del k d) ids ((k, v) :: d)
  = (k, v) :: fold_left (fun d k => PyDict.del k d) ids d.
Proof.
  revert d. induction ids as [| k0 ids IH]; intros d Hnotin; [reflexivity |].
  cbn [fold_left PyDict.del].
  destruct (String.eqb_spec k k0) as [-> | Hne]; [destruct Hnotin; left; reflexivity |].
  apply IH. intros Hin. apply Hnotin. right. exact Hin.
Qed.

Lemma fold_del_filter {V} (p : string * V -> bool) (d : PyDict.dict V) :
  NoDup (PyDict.keys d) ->
  fold_left (fun d k => PyDict.del k d) (PyDict.keys (List.filter p d)) d
  = List.filter (fun kv => negb (p kv)) d.
Proof.
  induction d as [| [k v] d IH]; [reflexivity |].
  cbn [PyDict.keys map fst]. intros Hnd. apply NoDup_cons in Hnd.
  destruct Hnd as [Hnotin Hnd]. cbn [List.filter].
  destruct (p (k, v)) eqn:Hp; cbn [negb].
  - cbn [PyDict.keys map fst fold_left PyDict.del]. rewrite String.eqb_refl.
    apply IH, Hnd.
  - rewrite fold_del_cons; [f_equal; apply IH, Hnd |].
    intros Hin. apply Hnotin, list_elem_of_In.
    unfold PyDict.keys in Hin. apply in_map_iff in Hin.
    destruct Hin as ([k' v'] & Heq & Hin). cbn in Heq. subst k'.
    apply filter_In in Hin. eapply in_keys, Hin.
Qed.

Lemma values_filter {V} (q : V -> bool) (d : PyDict.dict V) :
  PyDict.values (List.filter (fun kv => q (snd kv)) d) = List.filter q (PyDict.values d).
Proof.
  unfold PyDict.values. induction d as [| [k v] d IH]; cbn; [reflexivity |].
  destruct (q v); cbn; rewrite IH; reflexivity.
Qed.

Lemma cleanup_frame (ids : list string) (st : State) :
  let st' := fold_left
               (fun st tid =>
                  let st1 := if PyDict.mem tid (tasks st)
                             then with_tasks (PyDict.del tid (tasks st)) st else st in
                  with_timers (PyDict.del tid (timers st1)) st1) ids st in
  timers st' = fold_left (fun d k => PyDict.del k d) ids (timers st) /\
  heap st' = heap st /\ pool st' = pool st /\ calls st' = calls st.
Proof.
  revert st. induction ids as [| k ids IH]; intros st; [repeat split |].
  cbn [fold_left]. cbn zeta in IH |- *.
  match goal with |- context [fold_left ?f ids ?s] =>
    destruct (IH s) as (Ht & Hh & Hp & Hc); rewrite Ht, Hh, Hp, Hc end.
  destruct (PyDict.mem k (tasks st)); repeat split.
Qed.

(** X17. [cleanup_completed] takes exactly the completed timers out of the
    manager: the timers left are the active ones, in their order, the
    number returned is the number of timers that were complete, and no
    timer object, task or callback is touched. *)
Theorem cleanup_completed_leaves_active (ops : list op) :
  let st := run ops init in
  let st' := fst (cleanup_completed st) in
  get_all_timers st' = get_active_timers st /\
  get_active_timers st' = get_active_timers st /\
  snd (cleanup_completed st)
  = (Z.of_nat (length (get_all_timers st)) - Z.of_nat (length (get_active_timers st)))%Z /\
  heap st' = heap st /\ pool st' = pool st /\ calls st' = calls st.
Proof.
  intros st st'.
  destruct (well_formed_run ops init keyed_init well_formed_init) as (Hnt & _).
  fold st in Hnt.
  set (p := fun kv : string * nat => is_complete (heap st !!! snd kv)).
  destruct (cleanup_frame (PyDict.keys (List.filter p (timers st))) st)
    as (Ht & Hh & Hp & Hc).
  change (fold_left _ (PyDict.keys (List.filter p (timers st))) st) with st' in Ht, Hh, Hp, Hc.
  rewrite (fold_del_filter p (timers st) Hnt) in Ht.
  assert (Hall : get_all_timers st' = get_active_timers st).
  { unfold get_all_timers, get_active_timers. rewrite Ht.
    apply (values_filter (fun ref => negb (is_complete (heap st !!! ref)))). }
  split; [exact Hall |]. split.
  { unfold get_active_timers at 1. fold (get_all_timers st'). rewrite Hall, Hh.
    unfold get_active_timers. apply filter_filter_same. }
  split; [| repeat split; assumption].
  change (snd (cleanup_completed st))
    with (Z.of_nat (length (PyDict.keys (List.filter p (timers st))))).
  assert (H1 : length (PyDict.keys (List.filter p (timers st)))
               = length (List.filter p (timers st))) by apply length_map.
  assert (H2 : length (get_all_timers st) = length (timers st)) by apply length_map.
  assert (H3 : length (get_active_timers st)
               = length (List.filter (fun kv => negb (p kv)) (timers st))).
  { unfold get_active_timers.
    rewrite <- (values_filter (fun ref => negb (is_complete (heap st !!! ref)))).
    apply length_map. }
  pose proof (filter_lengths p (timers st)) as Hlen.
  rewrite H1, H2, H3. lia.
Qed.

Lemma set_absent {V} (k : string) (v : V) (d : PyDict.dict V) :
  PyDict.get k d = None -> PyDict.set k v d = d ++ [(k, v)].
Proof.
  induction d as [| [k' v'] d IH]; cbn; [reflexivity |].
  destruct (String.eqb k' k); [discriminate |]. intros H. rewrite (IH H). reflexivity.
Qed.

Lemma find_keys_entries (s : string) (d : PyDict.dict nat) :
  Forall (fun k => id_matches k s = false) (PyDict.keys d) ->
  List.find (fun kv => id_matches (fst kv) s) d = None.
Proof.
  induction d as [| [k v] d IH]; cbn; [reflexivity |].
  intros H. apply Forall_cons in H. destruct H as [Hk Hd].
  rewrite Hk. apply IH, Hd.
Qed.

(** X18. A timer added under an id that no timer of the manager matches
    can be started by that id at once: [get_timer] finds the new timer,
    [start_timer] returns true and creates the one task that counts it
    down. *)
Theorem add_then_start (ops : list op) (uuid now title : string) (minutes : Z)
    (todo_id : option string)
    (Hfresh : Forall (fun k => id_matches k (String.substring 0 8 uuid) = false)
                (PyDict.keys (timers (run ops init)))) :
  let st := run ops init in
  let timer_id := String.substring 0 8 uuid in
  let st1 := fst (add_timer uuid now title minutes todo_id st) in
  let r := snd (add_timer uuid now title minutes todo_id st) in
  let st2 := fst (start_timer timer_id st1) in
  heap st1 !! r = Some (Timer.create uuid now title minutes todo_id) /\
  get_timer timer_id st1 = Some r /\
  snd (start_timer timer_id st1) = true /\
  pool st2 = pool st ++ [mk_task r Scheduled] /\
  PyDict.get timer_id (tasks st2) = Some (length (pool st)) /\
  task_running timer_id st2 = true.
Proof.
  intros st timer_id st1 r st2.
  destruct (well_formed_run ops init keyed_init well_formed_init)
    as (_ & _ & _ & Htasks & _). fold st in Htasks, Hfresh.
  assert (Hnew : ~ In timer_id (PyDict.keys (timers st))).
  { intros Hin. rewrite Forall_forall in Hfresh.
    specialize (Hfresh timer_id (proj2 (list_elem_of_In _ _) Hin)).
    rewrite id_matches_refl in Hfresh. discriminate. }
  assert (Hr : heap st1 !! r = Some (Timer.create uuid now title minutes todo_id)).
  { unfold st1, r. cbn. apply list_lookup_middle. reflexivity. }
  assert (Htimers : timers st1 = timers st ++ [(timer_id, r)]).
  { unfold st1, r. cbn. apply set_absent, get_none_keys, Hnew. }
  assert (Hget : get_timer timer_id st1 = Some r).
  { unfold get_timer. rewrite Htimers.
    rewrite (find_app_none _ _ _ (find_keys_entries timer_id (timers st) Hfresh)).
    cbn. rewrite id_matches_refl. reflexivity. }
  assert (Hidle : task_running timer_id st1 = false).
  { unfold task_running. change (tasks st1) with (tasks st).
    destruct (PyDict.get timer_id (tasks st)) as [h |] eqn:Hh; [| reflexivity].
    exfalso. assert (Hin : In timer_id (PyDict.keys (tasks st))).
    { destruct (in_dec string_dec timer_id (PyDict.keys (tasks st))) as [H | H];
        [exact H |]. apply get_none_keys in H. congruence. }
    unfold PyDict.keys in Hin. apply in_map_iff in Hin.
    destruct Hin as ([k h0] & Heq & Hin). cbn in Heq. subst k.
    apply Hnew. apply (Htasks timer_id h0 Hin). }
  split; [exact Hr |]. split; [exact Hget |].
  unfold st2, start_timer. rewrite Hget, Hidle. cbn [fst snd].
  rewrite (list_lookup_total_correct _ _ _ Hr).
  change (id (Timer.create uuid now title minutes todo_id)) with timer_id.
  split; [reflexivity |]. split; [reflexivity |].
  assert (Hh : PyDict.get timer_id (PyDict.set timer_id (length (pool st1)) (tasks st1))
               = Some (length (pool st))) by apply get_set_same.
  split; [exact Hh |].
  unfold task_running. cbn [tasks with_tasks with_pool pool]. rewrite Hh.
  change (pool st1) with (pool st).
  rewrite (list_lookup_total_correct _ _ (mk_task r Scheduled)); [reflexivity |].
  apply list_lookup_middle. reflexivity.
Qed.

Lemma add_then_start_witness :
  let st := run Sample.focus_ops init in
  let uuid := "beef5678-0000-4000-8000-000000000000" in
  let st1 := fst (add_timer uuid Sample.focus_start "Break" 5 None st) in
  let r := snd (add_timer uuid Sample.focus_start "Break" 5 None st) in
  let st2 := fst (start_timer (String.substring 0 8 uuid) st1) in
  heap st1 !! r = Some (Timer.create uuid Sample.focus_start "Break" 5 None) /\
  get_timer (String.substring 0 8 uuid) st1 = Some r /\
  snd (start_timer (String.substring 0 8 uuid) st1) = true /\
  pool st2 = pool st ++ [mk_task r Scheduled] /\
  PyDict.get (String.substring 0 8 uuid) (tasks st2) = Some (length (pool st)) /\
  task_running (String.substring 0 8 uuid) st2 = true.
Proof.
  apply (add_then_start Sample.focus_ops "beef5678-0000-4000-8000-000000000000"
           Sample.focus_start "Break" 5 None).
  vm_compute. repeat constructor.
Defined.
End Sweeping.

Section StartAll.
Import Timer TimerManager Inv Shape.

Lemma get_set {V} (k k' : string) (v : V) (d : PyDict.dict V) :
  PyDict.get k (PyDict.set k' v d)
  = if String.eqb k' k then Some v else PyDict.get k d.
Proof.
  induction d as [| [k0 v0] d IH]; cbn.
  - destruct (String.eqb k' k); reflexivity.
  - destruct (String.eqb_spec k0 k') as [-> | Hne]; cbn.
    + destruct (String.eqb k' k); reflexivity.
    + rewrite IH. destruct (String.eqb_spec k' k) as [-> | _]; [| reflexivity].
      destruct (String.eqb_spec k0 k); [contradiction | reflexivity].
Qed.

(** Equal length makes a prefix the whole string, as for the ids cut from
    a uuid. *)
Lemma prefix_same_length (a b : string) :
  String.length a = String.length b -> String.prefix a b = true -> a = b.
Proof.
  revert b. induction a as [| x a IH]; intros [| y b]; cbn; try discriminate;
    [reflexivity |].
  intros Hlen. destruct (ascii_dec x y) as [-> | ]; [| discriminate].
  intros Hp. f_equal. apply IH; [lia | exact Hp].
Qed.

Lemma same_length_prefix_free (n : nat) (st : State) :
  Forall (fun k => String.length k = n) (PyDict.keys (timers st)) -> prefix_free st.
Proof.
  intros Hlen k1 k2 H1 H2 Hm. rewrite Forall_forall in Hlen.
  apply id_matches_spec in Hm. destruct Hm as [Heq | Hp]; [exact Heq |].
  symmetry. apply prefix_same_length; [| exact Hp].
  rewrite (Hlen k1), (Hlen k2); [reflexivity | |]; apply list_elem_of_In; assumption.
Qed.

Lemma spawned_running (k : string) (r : nat) (a : State) :
  task_running k
    (with_tasks (PyDict.set k (length (pool a)) (tasks a))
       (with_pool (pool a ++ [mk_task r Scheduled]) a)) = true.
Proof.
  unfold task_running. cbn. rewrite get_set_same.
  rewrite (list_lookup_total_correct _ _ (mk_task r Scheduled)); [reflexivity |].
  apply list_lookup_middle. reflexivity.
Qed.

Lemma start_timer_keeps_running (k s : string) (a : State) :
  task_running k a = true -> task_running k (fst (start_timer s a)) = true.
Proof.
  intros Hrun. unfold start_timer. destruct (get_timer s a) as [r |]; [| exact Hrun].
  destruct (task_running s a); [exact Hrun |]. cbn [fst].
  unfold task_running in *. cbn. rewrite get_set.
  destruct (String.eqb _ k).
  - rewrite (list_lookup_total_correct _ _ (mk_task r Scheduled)); [reflexivity |].
    apply list_lookup_middle. reflexivity.
  - destruct (PyDict.get k (tasks a)) as [h |]; [| discriminate].
    destruct (pool a !! h) as [task |] eqn:Hh.
    + rewrite (list_lookup_total_correct _ _ _ Hh) in Hrun.
      rewrite (list_lookup_total_correct _ _ task); [exact Hrun |].
      rewrite lookup_app_l; [exact Hh | eapply lookup_lt_Some, Hh].
    + rewrite list_lookup_total_alt, Hh in Hrun. discriminate.
Qed.

Lemma start_timer_own_id (k : string) (a : State) :
  keyed a -> prefix_free a -> In k (PyDict.keys (timers a)) ->
  task_running k a = false ->
  task_running k (fst (start_timer k a)) = true.
Proof.
  intros Hkeyed Hpf Hin Hidle. unfold start_timer, get_timer.
  destruct (List.find _ (timers a)) as [[kf r] |] eqn:Hfind.
  - apply find_some in Hfind. destruct Hfind as [Hinf Hm]. cbn in Hm.
    assert (kf = k) as -> by (apply Hpf; [eapply in_keys, Hinf | exact Hin | exact Hm]).
    destruct (Hkeyed k r Hinf) as (t & Hr & Hid).
    rewrite Hidle. cbn [fst]. rewrite (list_lookup_total_correct _ _ _ Hr), Hid.
    exact (spawned_running k r a).
  - exfalso. unfold PyDict.keys in Hin. apply in_map_iff in Hin.
    destruct Hin as ([k0 r0] & Heq & Hin0). cbn in Heq. subst k0.
    pose proof (find_none _ _ Hfind _ Hin0) as Hno. cbn in Hno.
    rewrite id_matches_refl in Hno. discriminate.
Qed.

Lemma start_all_loop (l : list string) (st a : State) (k : string) :
  keyed st -> prefix_free st ->
  timers a = timers st -> heap a = heap st ->
  Forall (fun k0 => In k0 (PyDict.keys (timers st))) l ->
  In k l \/ task_running k a = true ->
  task_running k
    (fold_left
       (fun st timer_id =>
          if negb (task_running timer_id st) then fst (start_timer timer_id st) else st)
       l a) = true.
Proof.
  intros Hkeyed Hpf. revert a.
  induction l as [| k0 l IH]; intros a Ht Hh Hl Hcase; cbn [fold_left].
  - destruct Hcase as [[] | Hrun]. exact Hrun.
  - apply Forall_cons in Hl. destruct Hl as [Hk0 Hl].
    assert (Hka : keyed a) by (eapply keyed_frame; [exact Ht | exact Hh | exact Hkeyed]).
    assert (Hpa : prefix_free a) by (unfold prefix_free; rewrite Ht; exact Hpf).
    apply IH.
    + destruct (negb _); [rewrite timers_start_timer |]; exact Ht.
    + destruct (negb _); [rewrite heap_start_timer |]; exact Hh.
    + exact Hl.
    + destruct Hcase as [[-> | Hin] | Hrun].
      * right. destruct (task_running k a) eqn:Hrun; cbn [negb]; [exact Hrun |].
        apply start_timer_own_id; try assumption. rewrite Ht. exact Hk0.
      * left. exact Hin.
      * right. destruct (negb _); [| exact Hrun].
        apply start_timer_keeps_running, Hrun.
Qed.

(** X19. [start_all] leaves every timer of the manager with an active
    countdown task, when no id is the beginning of another id, as is the
    case for ids of equal length.  It sets the running flag, touches no
    timer object and calls no callback. *)
Theorem start_all_starts_every_timer (ops : list op)
    (Hpf : prefix_free (run ops init)) :
  let st := run ops init in
  Forall (fun k => task_running k (start_all st) = true) (PyDict.keys (timers st)) /\
  running (start_all st) = true /\
  timers (start_all st) = timers st /\
  heap (start_all st) = heap st /\
  calls (start_all st) = calls st.
Proof.
  intros st. split; [| split; [| split; [| split]]].
  - apply Forall_forall. intros k Hin. apply list_elem_of_In in Hin.
    unfold start_all.
    apply (start_all_loop (PyDict.keys (timers st)) st (with_running true st) k);
      try reflexivity; try assumption.
    + apply keyed_run, keyed_init.
    + apply Forall_forall. intros k0 H0. apply list_elem_of_In, H0.
    + left. exact Hin.
  - unfold start_all.
    apply (fold_left_preserves (fun st' => running st' = true)); [| reflexivity].
    intros a b Ha. destruct (negb _); [| exact Ha].
    unfold start_timer. destruct (get_timer _ _); [| exact Ha].
    destruct (task_running _ _); exact Ha.
  - apply timers_start_all.
  - apply heap_start_all.
  - destruct (quiet_exec st StartAll) as [Hc _]; [discriminate | exact Hc].
Qed.

Lemma start_all_starts_every_timer_witness :
  let st := run (Sample.focus_ops ++ Sample.sixty_ticks) init in
  Forall (fun k => task_running k (start_all st) = true) (PyDict.keys (timers st)) /\
  running (start_all st) = true /\
  timers (start_all st) = timers st /\
  heap (start_all st) = heap st /\
  calls (start_all st) = calls st.
Proof.
  apply (start_all_starts_every_timer (Sample.focus_ops ++ Sample.sixty_ticks)).
  apply (same_length_prefix_free 8). vm_compute. repeat constructor.
Defined.
End StartAll.

Section Ids.
Import Timer TimerManager Inv Shape.

Lemma length_substring (n : nat) (s : string) :
  n <= String.length s -> String.length (String.substring 0 n s) = n.
Proof.
  revert s. induction n as [| n IH]; intros [| c s]; cbn; try lia; try reflexivity.
  intros H. rewrite IH; [reflexivity | lia].
Qed.

Lemma exec_key_lengths st o :
  long_uuid o = true ->
  Forall (fun k => String.length k = 8) (PyDict.keys (timers st)) ->
  Forall (fun k => String.length k = 8) (PyDict.keys (timers (exec st o))).
Proof.
  intros Ho Hall. apply Forall_forall. intros k Hin. apply list_elem_of_In in Hin.
  unfold PyDict.keys in Hin. apply in_map_iff in Hin.
  destruct Hin as ([k0 r] & Heq & Hin). cbn in Heq. subst k0.
  apply timers_exec in Hin.
  destruct Hin as [Hin | (uuid & now & title & minutes & todo_id & -> & -> & _)].
  - rewrite Forall_forall in Hall. apply Hall, list_elem_of_In. eapply in_keys, Hin.
  - cbn in Ho |- *. apply length_substring. apply Nat.leb_le, Ho.
Qed.

(** X20. The ids of the timers of a manager have exactly eight characters,
    when every uuid that [add_timer] drew had at least eight; no id is then
    the beginning of another, so that an id given in full stands for one
    timer only. *)
Theorem timer_ids_have_eight_characters (ops : list op)
    (Hops : forallb long_uuid ops = true) :
  Forall (fun k => String.length k = 8) (PyDict.keys (timers (run ops init))) /\
  prefix_free (run ops init).
Proof.
  assert (H : forall st,
             Forall (fun k => String.length k = 8) (PyDict.keys (timers st)) ->
             Forall (fun k => String.length k = 8) (PyDict.keys (timers (run ops st)))).
  { induction ops as [| o ops IH]; intros st Hst; [exact Hst |].
    cbn in Hops. apply andb_true_iff in Hops. destruct Hops as [Ho Hops].
    cbn. apply (IH Hops). apply exec_key_lengths; assumption. }
  specialize (H init (Forall_nil_2 _)).
  split; [exact H | apply (same_length_prefix_free 8), H].
Qed.

Lemma timer_ids_have_eight_characters_witness :
  Forall (fun k => String.length k = 8)
    (PyDict.keys (timers (run Sample.restart_ops init))) /\
  prefix_free (run Sample.restart_ops init).
Proof.
  apply (timer_ids_have_eight_characters Sample.restart_ops).
  vm_compute. reflexivity.
Defined.
End Ids.

Section PauseResume.
Import Timer TimerManager Inv Shape.

Lemma alter_back (r : nat) (t : Timer) (hp : list Timer) :
  hp !! r = Some t -> paused t = false ->
  alter (set_paused false) r (alter (set_paused true) r hp) = hp.
Proof.
  intros Hr Hp. apply list_eq. intros i. destruct (decide (r = i)) as [<- | Hne].
  - rewrite !list_lookup_alter_eq, Hr. cbn. rewrite <- Hp at 1.
    change (set_paused (paused t) (set_paused true t)) with (set_paused (paused t) t).
    rewrite set_paused_same. reflexivity.
  - rewrite !list_lookup_alter_ne by exact Hne. reflexivity.
Qed.

(** X21. Pausing and then resuming a running timer loses nothing: both
    calls succeed, in between the timer is paused, and afterwards every
    timer object is as it was and the timer has an active countdown task,
    the one it had if that task has not returned yet, a new one
    otherwise. *)
Theorem pause_then_resume (ops : list op) (s : string) (r : nat) (t : Timer)
    (Hget : get_timer s (run ops init) = Some r)
    (Hr : heap (run ops init) !! r = Some t)
    (Hp : paused t = false) :
  let st := run ops init in
  let st1 := fst (pause_timer s st) in
  let st2 := fst (resume_timer s st1) in
  snd (pause_timer s st) = true /\
  heap st1 = <[r := set_paused true t]> (heap st) /\
  snd (resume_timer s st1) = true /\
  heap st2 = heap st /\
  timers st2 = timers st /\
  task_running (id t) st2 = true /\
  pool st2 = (if task_running (id t) st then pool st
              else pool st ++ [mk_task r Scheduled]).
Proof.
  intros st st1 st2. fold st in Hget, Hr.
  pose proof (keyed_run ops init keyed_init) as Hk. fold st in Hk.
  destruct (get_timer_by_found_id s st r Hk Hget) as (t0 & Hr0 & _ & Hfound).
  rewrite Hr in Hr0. injection Hr0 as <-.
  assert (Hst1 : st1 = with_heap (alter (set_paused true) r (heap st)) st).
  { unfold st1, pause_timer. rewrite Hget. reflexivity. }
  assert (Hr1 : heap st1 !! r = Some (set_paused true t)).
  { rewrite Hst1. cbn. rewrite list_lookup_alter_eq, Hr. reflexivity. }
  split; [unfold pause_timer; rewrite Hget; reflexivity |].
  split.
  { rewrite Hst1. cbn. apply list_eq. intros i.
    destruct (decide (r = i)) as [<- | Hne].
    - rewrite list_lookup_alter_eq, Hr.
      rewrite list_lookup_insert_eq by (eapply lookup_lt_Some, Hr). reflexivity.
    - rewrite list_lookup_alter_ne, list_lookup_insert_ne by exact Hne. reflexivity. }
  assert (Hget1 : get_timer s st1 = Some r) by (rewrite Hst1; exact Hget).
  unfold st2, resume_timer. rewrite Hget1, (list_lookup_total_correct _ _ _ Hr1).
  cbn [paused set_paused fst snd].
  assert (Hback : with_heap (alter (set_paused false) r (heap st1)) st1 = st).
  { rewrite Hst1. cbn [heap with_heap]. rewrite (alter_back r t (heap st) Hr Hp).
    destruct st; reflexivity. }
  rewrite Hback, (list_lookup_total_correct _ _ _ Hr).
  split; [reflexivity |].
  unfold start_timer. rewrite Hfound.
  destruct (task_running (id t) st) eqn:Hrun; cbn [fst].
  - repeat split; assumption.
  - rewrite (list_lookup_total_correct _ _ _ Hr).
    split; [reflexivity |]. split; [reflexivity |].
    split; [exact (spawned_running (id t) r st) | reflexivity].
Qed.

Lemma pause_then_resume_witness :
  let st := run (Sample.focus_ops ++ [ResumeTask 0; ResumeTask 0]) init in
  let t := Sample.focus_timer 59 in
  let st1 := fst (pause_timer "abcd" st) in
  let st2 := fst (resume_timer "abcd" st1) in
  snd (pause_timer "abcd" st) = true /\
  heap st1 = <[0%nat := set_paused true t]> (heap st) /\
  snd (resume_timer "abcd" st1) = true /\
  heap st2 = heap st /\
  timers st2 = timers st /\
  task_running (id t) st2 = true /\
  pool st2 = (if task_running (id t) st then pool st
              else pool st ++ [mk_task 0 Scheduled]).
Proof.
  apply (pause_then_resume (Sample.focus_ops ++ [ResumeTask 0; ResumeTask 0])
           "abcd" 0 (Sample.focus_timer 59)).
  - vm_compute. reflexivity.
  - vm_compute. reflexivity.
  - reflexivity.
Defined.
End PauseResume.
